(** * QBox trading-session engine: registry, window matching, DST label

    A shallow embedding of the session code of the QBox front end
    (the [TradingWindow] / [TradingSessionDefinition] interfaces, the
    [SESSION_DEFINITIONS] table and the functions [timeStringToMinutes],
    [getMinutesInTimeZone], [isWithinWindow], [getTimeZoneOffsetMinutes],
    [computeDstLabel], [formatLocalTime], [getUsSessionSnapshot],
    [getHkSessionSnapshot] and [listSessionsByMarket]), followed by the
    properties of the session classifier.  The callers of the classifier
    in the application shell ([SessionCardRow], the rows of the session
    dialog) and the helpers of the backtest page (strategy parameters,
    sorting, chart range) are embedded too, in [Module Backtest] for the
    latter.

    Conventions of the embedding.
    - A JavaScript number that the code computes from integers is a [num]:
      an integer or [NaN].  Every comparison with [NaN] is false, every
      arithmetic operation on [NaN] is [NaN].  The one division of the code
      (milliseconds to minutes) yields a [ratio]: a rational or [RNaN].
    - A JavaScript string is a [string] of bytes; the Chinese session names
      and labels are their UTF-8 encodings.
    - [Date], [Intl.DateTimeFormat] and [toLocaleString] are the runtime's:
      they are the fields of a [Platform] record the functions take as an
      argument.  The functions are modelled on valid instants (formatting
      an invalid [Date] raises a RangeError in the runtime). *)

From Stdlib Require Import ZArith QArith Qminmax Bool List Lia.
From Stdlib Require Import Ascii String DecimalString.
Import ListNotations.

Local Open Scope string_scope.
Local Open Scope Z_scope.

(** ** JavaScript numbers *)

Inductive num : Type :=
| NaN
| Num (z : Z).

Definition num_add (a b : num) : num :=
  match a, b with
  | Num x, Num y => Num (x + y)
  | _, _ => NaN
  end.

Definition num_sub (a b : num) : num :=
  match a, b with
  | Num x, Num y => Num (x - y)
  | _, _ => NaN
  end.

Definition num_mul (a b : num) : num :=
  match a, b with
  | Num x, Num y => Num (x * y)
  | _, _ => NaN
  end.

(** [a <= b], [a < b] and [a >= b] of JavaScript: false as soon as one side
    is [NaN]. *)
Definition num_le (a b : num) : bool :=
  match a, b with
  | Num x, Num y => x <=? y
  | _, _ => false
  end.

Definition num_lt (a b : num) : bool :=
  match a, b with
  | Num x, Num y => x <? y
  | _, _ => false
  end.

Definition num_ge (a b : num) : bool := num_le b a.

(** The quotient of the code's one division. *)
Inductive ratio : Type :=
| RNaN
| RNum (q : Q).

Definition num_div (a : num) (d : positive) : ratio :=
  match a with
  | Num x => RNum (x # d)
  | NaN => RNaN
  end.

Definition ratio_lt (a b : ratio) : bool :=
  match a, b with
  | RNum x, RNum y => negb (Qle_bool y x)
  | _, _ => false
  end.

(** [Math.max(a, b)]: [NaN] if either argument is. *)
Definition Math_max (a b : ratio) : ratio :=
  match a, b with
  | RNum x, RNum y => if Qle_bool x y then RNum y else RNum x
  | _, _ => RNaN
  end.

(** ** JavaScript string operations used by the code *)

Definition isDigit (c : ascii) : bool :=
  let n := Z.of_nat (nat_of_ascii c) in (48 <=? n) && (n <=? 57).

Definition digitValue (c : ascii) : Z := Z.of_nat (nat_of_ascii c) - 48.

(** White space skipped by [parseInt] and [Number] (the ASCII part of
    StrWhiteSpaceChar: TAB, LF, VT, FF, CR, SP). *)
Definition isWhiteSpace (c : ascii) : bool :=
  let n := Z.of_nat (nat_of_ascii c) in
  ((9 <=? n) && (n <=? 13)) || (n =? 32).

Fixpoint trimStart (s : string) : string :=
  match s with
  | String c rest => if isWhiteSpace c then trimStart rest else s
  | EmptyString => s
  end.

(** The value of the longest prefix of decimal digits, [None] when the
    string does not start with a digit. *)
Fixpoint leadingDigits (s : string) (acc : option Z) : option Z :=
  match s with
  | String c rest =>
      if isDigit c
      then leadingDigits rest
             (Some (10 * match acc with Some a => a | None => 0 end
                    + digitValue c))
      else acc
  | EmptyString => acc
  end.

(** [parseInt(s, 10)]: leading white space, an optional sign, then the
    longest run of digits; [NaN] when there is no digit. *)
Definition parseInt (s : string) : num :=
  let t := trimStart s in
  let '(negative, body) :=
    match t with
    | String "-"%char rest => (true, rest)
    | String "+"%char rest => (false, rest)
    | _ => (false, t)
    end in
  match leadingDigits body None with
  | Some v => Num (if negative then - v else v)
  | None => NaN
  end.

Fixpoint allDigits (s : string) : bool :=
  match s with
  | String c rest => isDigit c && allDigits rest
  | EmptyString => true
  end.

Fixpoint trimEnd (s : string) : string :=
  match s with
  | String c rest =>
      match trimEnd rest with
      | EmptyString => if isWhiteSpace c then EmptyString else String c EmptyString
      | t => String c t
      end
  | EmptyString => EmptyString
  end.

(** [Number(s)] on the strings the code gives it, the numeric fields of a
    formatted date: white space is trimmed, the empty string is 0, a run of
    decimal digits is its value.  Any other string is [NaN] here (the
    runtime also reads signs, fractions, exponents and radix prefixes,
    which no date field carries). *)
Definition Number (s : string) : num :=
  let t := trimEnd (trimStart s) in
  match t with
  | EmptyString => Num 0
  | _ => if allDigits t
         then match leadingDigits t None with Some v => Num v | None => NaN end
         else NaN
  end.

(** [s.split(sep)] for a one-character separator. *)
Fixpoint split (sep : ascii) (s : string) : list string :=
  match s with
  | EmptyString => [EmptyString]
  | String c rest =>
      if Ascii.eqb c sep
      then EmptyString :: split sep rest
      else match split sep rest with
           | piece :: pieces => String c piece :: pieces
           | [] => [String c EmptyString]
           end
  end.

(** [s.toUpperCase()] on the ASCII letters. *)
Definition upperChar (c : ascii) : ascii :=
  let n := nat_of_ascii c in
  if (Nat.leb 97 n && Nat.leb n 122)%bool then ascii_of_nat (n - 32) else c.

Fixpoint toUpperCase (s : string) : string :=
  match s with
  | String c rest => String (upperChar c) (toUpperCase rest)
  | EmptyString => EmptyString
  end.

(** [s.includes(needle)]. *)
Fixpoint includes (s needle : string) : bool :=
  if prefix needle s then true
  else match s with
       | String _ rest => includes rest needle
       | EmptyString => false
       end.

(** ** The data model *)

Inductive Market : Type := us | hk.

Definition Market_eqb (a b : Market) : bool :=
  match a, b with
  | us, us | hk, hk => true
  | _, _ => false
  end.

(** [interface TradingWindow { start: string; end: string }], both HH:MM. *)
Record TradingWindow : Type := {
  start : string;
  end_ : string
}.

Record TradingSessionDefinition : Type := {
  name : string;
  market : Market;
  timeZone : string;
  windows : list TradingWindow;
  supportsDst : option bool;
  description : option string
}.

Definition SESSION_DEFINITIONS : list TradingSessionDefinition :=
  [ {| name := "美股盘前";
       market := us;
       timeZone := "America/New_York";
       windows := [ {| start := "04:00"; end_ := "09:30" |} ];
       supportsDst := None;
       description := Some "常规交易日前的延长时段，允许挂单与撮合。" |};
    {| name := "美股盘中";
       market := us;
       timeZone := "America/New_York";
       windows := [ {| start := "09:30"; end_ := "16:00" |} ];
       supportsDst := None;
       description := Some "纽交所与纳斯达克的正常开盘时段。" |};
    {| name := "美股盘后";
       market := us;
       timeZone := "America/New_York";
       windows := [ {| start := "16:00"; end_ := "20:00" |} ];
       supportsDst := None;
       description := Some "美股收盘后的延长时段，通常成交量较低。" |};
    {| name := "美股夜盘";
       market := us;
       timeZone := "America/New_York";
       windows := [ {| start := "20:00"; end_ := "04:00" |} ];
       supportsDst := None;
       description := Some "部分券商提供的隔夜交易时段，跨越午夜。" |};
    {| name := "港股盘中";
       market := hk;
       timeZone := "Asia/Hong_Kong";
       windows := [ {| start := "09:30"; end_ := "12:00" |};
                    {| start := "13:00"; end_ := "16:00" |} ];
       supportsDst := Some false;
       description := Some "香港交易所的常规日间交易，午间有一小时休市。" |};
    {| name := "港股夜盘";
       market := hk;
       timeZone := "Asia/Hong_Kong";
       windows := [ {| start := "17:15"; end_ := "03:00" |} ];
       supportsDst := Some false;
       description := Some "港股衍生品及部分品种的夜间交易时段。" |} ].

Definition US_SESSION_ORDER : list string :=
  ["美股盘前"; "美股盘中"; "美股盘后"; "美股夜盘"].

Definition HK_SESSION_ORDER : list string :=
  ["港股盘中"; "港股夜盘"].

(** [timeStringToMinutes]: the pieces between colons are read by
    [parseInt]; the first two are the hour and the minute (a missing one is
    [undefined], which makes the sum [NaN]). *)
Definition timeStringToMinutes (value : string) : num :=
  match map parseInt (split ":"%char value) with
  | hour :: minute :: _ => num_add (num_mul hour (Num 60)) minute
  | _ => NaN
  end.

(** ** The runtime: [Date] and [Intl] *)

Module Intl.

(** The option bag of [Intl.DateTimeFormat] and [toLocaleString], with the
    keys the code sets; an absent key is [None]. *)
Record Options : Type := {
  timeZone : string;
  hour12 : option bool;
  month : option string;
  day : option string;
  hour : option string;
  minute : option string;
  second : option string;
  timeZoneName : option string
}.

(** One element of [formatToParts]: [{ type, value }]. *)
Record Part : Type := {
  type : string;
  value : string
}.

End Intl.

Record Platform : Type := {
  Date : Type;
  (** [date.getTime()], [NaN] for an invalid date *)
  getTime : Date -> num;
  (** [date.getUTCFullYear()] *)
  getUTCFullYear : Date -> num;
  (** [new Date(Date.UTC(year, monthIndex, day))] *)
  Date_UTC : num -> Z -> Z -> Date;
  (** [new Date(text)] *)
  Date_parse : string -> Date;
  (** [date.toLocaleString(locale, options)] *)
  toLocaleString : Date -> string -> Intl.Options -> string;
  (** [new Intl.DateTimeFormat(locale, options).formatToParts(date)] *)
  formatToParts : string -> Intl.Options -> Date -> list Intl.Part;
  (** [new Intl.DateTimeFormat(locale, options).format(date)] *)
  format : string -> Intl.Options -> Date -> string
}.

(** [parts.find((part) => part.type === ty)?.value] *)
Definition partValue (parts : list Intl.Part) (ty : string) : option string :=
  option_map Intl.value
    (find (fun part => String.eqb (Intl.type part) ty) parts).

(** [x ?? fallback] *)
Definition orElse {A : Type} (x : option A) (fallback : A) : A :=
  match x with
  | Some a => a
  | None => fallback
  end.

(** ** Window matching *)

(** The callback of [definition.windows.some(...)] in [isWithinWindow]. *)
Definition windowContains (currentMinutes : num) (window : TradingWindow)
  : bool :=
  let start := timeStringToMinutes (start window) in
  let end_ := timeStringToMinutes (end_ window) in
  if num_le start end_
  then num_ge currentMinutes start && num_lt currentMinutes end_
  else (* Cross-midnight window *)
    num_ge currentMinutes start || num_lt currentMinutes end_.

(** The labels of [computeDstLabel]. *)
Definition LABEL_UNKNOWN : string := "未知时制".
Definition LABEL_NO_DST : string := "标准时间（无夏令时）".
Definition LABEL_DAYLIGHT : string := "夏令时 (DST)".
Definition LABEL_STANDARD : string := "冬令时 (标准时间)".

(** [export interface SessionSnapshot] *)
Record SessionSnapshot : Type := {
  current : option TradingSessionDefinition;
  localTime : string;
  dstLabel : string
}.

Section Classifier.

Variable P : Platform.

Definition getMinutesInTimeZone (date : Date P) (timeZone : string) : num :=
  let parts :=
    formatToParts P "zh-CN"
      {| Intl.timeZone := timeZone;
         Intl.hour12 := Some false;
         Intl.month := None;
         Intl.day := None;
         Intl.hour := Some "2-digit";
         Intl.minute := Some "2-digit";
         Intl.second := None;
         Intl.timeZoneName := None |} date in
  let hour := Number (orElse (partValue parts "hour") "0") in
  let minute := Number (orElse (partValue parts "minute") "0") in
  num_add (num_mul hour (Num 60)) minute.

Definition isWithinWindow (date : Date P)
    (definition : TradingSessionDefinition) : bool :=
  let currentMinutes := getMinutesInTimeZone date (timeZone definition) in
  existsb (fun window => windowContains currentMinutes window)
    (windows definition).

(** The options [{ timeZone }] of [toLocaleString]. *)
Definition onlyTimeZone (timeZone : string) : Intl.Options :=
  {| Intl.timeZone := timeZone;
     Intl.hour12 := None;
     Intl.month := None;
     Intl.day := None;
     Intl.hour := None;
     Intl.minute := None;
     Intl.second := None;
     Intl.timeZoneName := None |}.

Definition getTimeZoneOffsetMinutes (date : Date P) (timeZone : string)
  : ratio :=
  let localized :=
    Date_parse P (toLocaleString P date "en-US" (onlyTimeZone timeZone)) in
  num_div (num_sub (getTime P date) (getTime P localized)) 60000.

(** The short zone name [computeDstLabel] reads from [formatToParts]. *)
Definition tzNamePart (date : Date P) (timeZone : string) : option string :=
  partValue
    (formatToParts P "en-US"
       {| Intl.timeZone := timeZone;
          Intl.hour12 := None;
          Intl.month := None;
          Intl.day := None;
          Intl.hour := None;
          Intl.minute := None;
          Intl.second := None;
          Intl.timeZoneName := Some "short" |} date)
    "timeZoneName".

(** The tail of [computeDstLabel], from [const year] on. *)
Definition offsetBasedLabel (definition : TradingSessionDefinition)
    (date : Date P) : string :=
  let year := getUTCFullYear P date in
  let january := Date_UTC P year 0 1 in
  let july := Date_UTC P year 6 1 in
  let currentOffset := getTimeZoneOffsetMinutes date (timeZone definition) in
  let januaryOffset := getTimeZoneOffsetMinutes january (timeZone definition) in
  let julyOffset := getTimeZoneOffsetMinutes july (timeZone definition) in
  let standardOffset := Math_max januaryOffset julyOffset in
  if ratio_lt currentOffset standardOffset
  then LABEL_DAYLIGHT
  else LABEL_STANDARD.

(** A string is truthy when it is not empty. *)
Definition truthy (s : string) : bool := negb (String.eqb s "").

Definition computeDstLabel (definition : option TradingSessionDefinition)
    (date : Date P) : string :=
  match definition with
  | None => LABEL_UNKNOWN
  | Some definition =>
      match supportsDst definition with
      | Some false => LABEL_NO_DST
      | _ =>
          let fallback := offsetBasedLabel definition date in
          match tzNamePart date (timeZone definition) with
          | Some name =>
              if truthy name then
                let upper := toUpperCase name in
                if includes upper "DT" then LABEL_DAYLIGHT
                else if includes upper "ST" || includes upper "STANDARD"
                     then LABEL_STANDARD
                     else fallback
              else fallback
          | None => fallback
          end
      end
  end.

Definition formatLocalTime (date : Date P) (timeZone : string) : string :=
  format P "zh-CN"
    {| Intl.timeZone := timeZone;
       Intl.hour12 := Some false;
       Intl.month := Some "2-digit";
       Intl.day := Some "2-digit";
       Intl.hour := Some "2-digit";
       Intl.minute := Some "2-digit";
       Intl.second := Some "2-digit";
       Intl.timeZoneName := None |} date.

(** [xs.filter(Boolean)] on an array of definitions or [undefined]. *)
Fixpoint filterDefined {A : Type} (xs : list (option A)) : list A :=
  match xs with
  | Some x :: rest => x :: filterDefined rest
  | None :: rest => filterDefined rest
  | [] => []
  end.

(** [order.map((name) => catalog.find((def) => def.name === name))
      .filter(Boolean)] *)
Definition definitionsInOrder (order : list string)
    (catalog : list TradingSessionDefinition)
  : list TradingSessionDefinition :=
  filterDefined
    (map (fun name' => find (fun def => String.eqb (name def) name') catalog)
       order).

(** The body that [getUsSessionSnapshot] and [getHkSessionSnapshot] share,
    written once: they differ in the order table and in the zone of the
    local time only.  The catalog is an argument too, so that the
    properties can speak of other configurations of the table. *)
Definition snapshotOf (order : list string)
    (catalog : list TradingSessionDefinition) (zone : string)
    (date : Date P) : SessionSnapshot :=
  let definitions := definitionsInOrder order catalog in
  let current :=
    find (fun definition => isWithinWindow date definition) definitions in
  let localTime := formatLocalTime date zone in
  let dstLabel := computeDstLabel (nth_error definitions 0) date in
  {| current := current; localTime := localTime; dstLabel := dstLabel |}.

Definition getUsSessionSnapshot (date : Date P) : SessionSnapshot :=
  snapshotOf US_SESSION_ORDER SESSION_DEFINITIONS "America/New_York" date.

Definition getHkSessionSnapshot (date : Date P) : SessionSnapshot :=
  snapshotOf HK_SESSION_ORDER SESSION_DEFINITIONS "Asia/Hong_Kong" date.

End Classifier.

(** [listSessionsByMarket], over a catalog; the exported function reads
    [SESSION_DEFINITIONS]. *)
Definition listSessionsIn (catalog : list TradingSessionDefinition)
    (market' : Market) : list TradingSessionDefinition :=
  filter (fun definition => Market_eqb (market definition) market') catalog.

Definition listSessionsByMarket (market' : Market)
  : list TradingSessionDefinition :=
  listSessionsIn SESSION_DEFINITIONS market'.

(** ** A reference runtime

    A small runtime on which the definitions above run: dates are
    milliseconds since the epoch, the system clock is UTC,
    America/New_York follows the United States rule in force since 2007
    (daylight time from the second Sunday of March, 07:00 UTC, to the first
    Sunday of November, 06:00 UTC), Asia/Hong_Kong is UTC+8 all year and any
    other zone is UTC.  With [abbreviations = false] the runtime has no zone
    abbreviations and prints short zone names as GMT offsets. *)

Module Ref.

Definition MS_PER_DAY : Z := 86400000.

(** Days since 1970-01-01 of a civil date (proleptic Gregorian). *)
Definition daysFromCivil (y m d : Z) : Z :=
  let y' := if m <=? 2 then y - 1 else y in
  let era := y' / 400 in
  let yoe := y' - era * 400 in
  let mp := if m <=? 2 then m + 9 else m - 3 in
  let doy := (153 * mp + 2) / 5 + d - 1 in
  let doe := yoe * 365 + yoe / 4 - yoe / 100 + doy in
  era * 146097 + doe - 719468.

(** The civil date (year, month 1-12, day) of a day number. *)
Definition civilFromDays (days : Z) : Z * Z * Z :=
  let z := days + 719468 in
  let era := z / 146097 in
  let doe := z - era * 146097 in
  let yoe := (doe - doe / 1460 + doe / 36524 - doe / 146096) / 365 in
  let doy := doe - (365 * yoe + yoe / 4 - yoe / 100) in
  let mp := (5 * doy + 2) / 153 in
  let d := doy - (153 * mp + 2) / 5 + 1 in
  let m := if mp <? 10 then mp + 3 else mp - 9 in
  (if m <=? 2 then yoe + era * 400 + 1 else yoe + era * 400, m, d).

Definition yearOf (ms : Z) : Z :=
  let '(y, _, _) := civilFromDays (ms / MS_PER_DAY) in y.

(** Day of the month of the [k]-th Sunday (k = 1, 2, ...) of a month. *)
Definition nthSunday (y m k : Z) : Z :=
  let weekday := (daysFromCivil y m 1 + 4) mod 7 in
  1 + (7 - weekday) mod 7 + 7 * (k - 1).

Definition usDaylight (ms : Z) : bool :=
  let y := yearOf ms in
  let dstStart := daysFromCivil y 3 (nthSunday y 3 2) * MS_PER_DAY + 7 * 3600000 in
  let dstEnd := daysFromCivil y 11 (nthSunday y 11 1) * MS_PER_DAY + 6 * 3600000 in
  (dstStart <=? ms) && (ms <? dstEnd).

(** Minutes east of UTC. *)
Definition zoneOffset (timeZone : string) (ms : Z) : Z :=
  if String.eqb timeZone "America/New_York"
  then if usDaylight ms then -240 else -300
  else if String.eqb timeZone "Asia/Hong_Kong" then 480 else 0.

Definition zoneName (abbreviations : bool) (timeZone : string) (ms : Z)
  : string :=
  if String.eqb timeZone "America/New_York"
  then if abbreviations
       then if usDaylight ms then "EDT" else "EST"
       else if usDaylight ms then "GMT-4" else "GMT-5"
  else if String.eqb timeZone "Asia/Hong_Kong" then "GMT+8" else "UTC".

Definition decimal (z : Z) : string :=
  DecimalString.NilEmpty.string_of_uint (N.to_uint (Z.to_N z)).

Definition twoDigit (z : Z) : string :=
  if z <? 10 then "0" ++ decimal z else decimal z.

(** The wall clock of a zone: (year, month, day, hour, minute, second). *)
Definition wallClock (timeZone : string) (ms : Z) : Z * Z * Z * Z * Z * Z :=
  let local := ms + zoneOffset timeZone ms * 60000 in
  let '(y, m, d) := civilFromDays (local / MS_PER_DAY) in
  let rest := local mod MS_PER_DAY in
  (y, m, d, rest / 3600000, rest / 60000 mod 60, rest / 1000 mod 60).

Definition part (ty v : string) : Intl.Part :=
  {| Intl.type := ty; Intl.value := v |}.

Definition field (requested : option string) (ty v : string)
  : list Intl.Part :=
  match requested with
  | Some _ => [part ty v]
  | None => []
  end.

(** [formatToParts]: the requested fields, in the order month, day, hour,
    minute, second, zone name, two digits each, with their separators; a
    formatter asked for a zone name only prints the numeric date first, as
    the en-US pattern does. *)
Definition formatToParts (abbreviations : bool) (locale : string)
    (options : Intl.Options) (date : num) : list Intl.Part :=
  match date with
  | NaN => []
  | Num ms =>
      let tz := Intl.timeZone options in
      let '(y, m, d, hh, mm, ss) := wallClock tz ms in
      match Intl.timeZoneName options, Intl.hour options with
      | Some _, None =>
          [part "month" (decimal m); part "literal" "/";
           part "day" (decimal d); part "literal" "/";
           part "year" (decimal y); part "literal" ", ";
           part "timeZoneName" (zoneName abbreviations tz ms)]
      | _, _ =>
          field (Intl.month options) "month" (twoDigit m)
          ++ field (Intl.month options) "literal" "/"
          ++ field (Intl.day options) "day" (twoDigit d)
          ++ field (Intl.day options) "literal" " "
          ++ field (Intl.hour options) "hour" (twoDigit hh)
          ++ field (Intl.minute options) "literal" ":"
          ++ field (Intl.minute options) "minute" (twoDigit mm)
          ++ field (Intl.second options) "literal" ":"
          ++ field (Intl.second options) "second" (twoDigit ss)
      end
  end.

Definition format (abbreviations : bool) (locale : string)
    (options : Intl.Options) (date : num) : string :=
  concat "" (map Intl.value (formatToParts abbreviations locale options date)).

(** [toLocaleString("en-US", { timeZone })]: M/D/YYYY, h:mm:ss AM. *)
Definition toLocaleString (date : num) (locale : string)
    (options : Intl.Options) : string :=
  match date with
  | NaN => "Invalid Date"
  | Num ms =>
      let '(y, m, d, hh, mm, ss) := wallClock (Intl.timeZone options) ms in
      let h12 := if hh mod 12 =? 0 then 12 else hh mod 12 in
      decimal m ++ "/" ++ decimal d ++ "/" ++ decimal y ++ ", "
      ++ decimal h12 ++ ":" ++ twoDigit mm ++ ":" ++ twoDigit ss
      ++ (if hh <? 12 then " AM" else " PM")
  end.

(** [new Date(text)] for the text above, read in the system zone (UTC). *)
Definition Date_parse (text : string) : num :=
  match split ","%char text with
  | [datePart; timePart] =>
      match map parseInt (split "/"%char datePart),
            split " "%char (trimStart timePart) with
      | [Num m; Num d; Num y], [clock; half] =>
          match map parseInt (split ":"%char clock) with
          | [Num h; Num mi; Num s] =>
              let hh := h mod 12 + (if String.eqb half "PM" then 12 else 0) in
              Num (daysFromCivil y m d * MS_PER_DAY
                   + hh * 3600000 + mi * 60000 + s * 1000)
          | _ => NaN
          end
      | _, _ => NaN
      end
  | _ => NaN
  end.

Definition getUTCFullYear (date : num) : num :=
  match date with
  | Num ms => Num (yearOf ms)
  | NaN => NaN
  end.

Definition Date_UTC (year : num) (monthIndex day : Z) : num :=
  match year with
  | Num y => Num (daysFromCivil y (monthIndex + 1) day * MS_PER_DAY)
  | NaN => NaN
  end.

Definition runtime (abbreviations : bool) : Platform :=
  Build_Platform num (fun date => date) getUTCFullYear Date_UTC Date_parse
    toLocaleString (formatToParts abbreviations) (format abbreviations).

(** [Date.UTC(y, m - 1, d, hh, mm)] as a date of the runtime. *)
Definition utc (y m d hh mm : Z) : num :=
  Num (daysFromCivil y m d * MS_PER_DAY + hh * 3600000 + mm * 60000).

End Ref.

(** ** Vocabulary of the properties *)

(** The definition of a session, looked up by name as the snapshot
    functions do. *)
Definition sessionNamed (name' : string) : option TradingSessionDefinition :=
  find (fun def => String.eqb (name def) name') SESSION_DEFINITIONS.

(** The exported classifier of each market. *)
Definition classify (P : Platform) (market' : Market) (date : Date P)
  : SessionSnapshot :=
  match market' with
  | us => getUsSessionSnapshot P date
  | hk => getHkSessionSnapshot P date
  end.

(** The definitions a market's classifier iterates over. *)
Definition marketDefinitions (market' : Market)
  : list TradingSessionDefinition :=
  match market' with
  | us => definitionsInOrder US_SESSION_ORDER SESSION_DEFINITIONS
  | hk => definitionsInOrder HK_SESSION_ORDER SESSION_DEFINITIONS
  end.

(** The zone in which a market's civil time is read. *)
Definition marketZone (market' : Market) : string :=
  match market' with
  | us => "America/New_York"
  | hk => "Asia/Hong_Kong"
  end.

(** Names of the sessions of a market with a window containing minute [m]. *)
Definition sessionsContaining (market' : Market) (m : Z) : list string :=
  map name
    (filter (fun d => existsb (windowContains (Num m)) (windows d))
       (listSessionsByMarket market')).

(** The short zone name decides nothing: it is absent, empty, or carries
    neither a daylight nor a standard designator. *)
Definition abbreviationInconclusive (tzName : option string) : bool :=
  match tzName with
  | None => true
  | Some n =>
      negb (truthy n)
      || (negb (includes (toUpperCase n) "DT")
          && negb (includes (toUpperCase n) "ST")
          && negb (includes (toUpperCase n) "STANDARD"))
  end.

(** ** Sample instants and sample tables *)

(** 2024-06-15 21:00 in New York (daylight time), 09:00 the next day in
    Hong Kong. *)
Definition NY_EVENING : num := Ref.utc 2024 6 16 1 0.

(** 2024-03-10 12:00 in Hong Kong, the end of the morning window. *)
Definition HK_NOON : num := Ref.utc 2024 3 10 4 0.

(** 2024-03-10 12:30 in Hong Kong, in the lunch break. *)
Definition HK_LUNCH : num := Ref.utc 2024 3 10 4 30.

(** The last minute of standard time and the first minute of daylight time
    in New York in 2024. *)
Definition BEFORE_SPRING_FORWARD : num := Ref.utc 2024 3 10 6 59.
Definition AFTER_SPRING_FORWARD : num := Ref.utc 2024 3 10 7 0.

(** The US overnight window and session, the first Hong Kong window and
    the Hong Kong day session, as the table has them. *)
Definition OVERNIGHT_WINDOW : TradingWindow :=
  {| start := "20:00"; end_ := "04:00" |}.

Definition US_OVERNIGHT : TradingSessionDefinition :=
  {| name := "美股夜盘";
     market := us;
     timeZone := "America/New_York";
     windows := [OVERNIGHT_WINDOW];
     supportsDst := None;
     description := Some "部分券商提供的隔夜交易时段，跨越午夜。" |}.

Definition HK_MORNING_WINDOW : TradingWindow :=
  {| start := "09:30"; end_ := "12:00" |}.

Definition HK_REGULAR : TradingSessionDefinition :=
  {| name := "港股盘中";
     market := hk;
     timeZone := "Asia/Hong_Kong";
     windows := [HK_MORNING_WINDOW; {| start := "13:00"; end_ := "16:00" |}];
     supportsDst := Some false;
     description := Some "香港交易所的常规日间交易，午间有一小时休市。" |}.

(** The first US definition, from which the US label is computed. *)
Definition US_PREMARKET : TradingSessionDefinition :=
  {| name := "美股盘前";
     market := us;
     timeZone := "America/New_York";
     windows := [ {| start := "04:00"; end_ := "09:30" |} ];
     supportsDst := None;
     description := Some "常规交易日前的延长时段，允许挂单与撮合。" |}.

(** Two sessions whose windows overlap, for the properties that speak of a
    misconfigured table: a long one, 09:00-12:00, and a shorter one inside
    it, 10:00-11:00, both read in UTC. *)
Definition LONG_SESSION : TradingSessionDefinition :=
  {| name := "long";
     market := us;
     timeZone := "UTC";
     windows := [ {| start := "09:00"; end_ := "12:00" |} ];
     supportsDst := None;
     description := None |}.

Definition SHORT_SESSION : TradingSessionDefinition :=
  {| name := "short";
     market := us;
     timeZone := "UTC";
     windows := [ {| start := "10:00"; end_ := "11:00" |} ];
     supportsDst := None;
     description := None |}.

(** 2024-01-02 10:30 UTC, inside both. *)
Definition UTC_HALF_PAST_TEN : num := Ref.utc 2024 1 2 10 30.

(** A session with no window at all, and a table that has it first. *)
Definition EMPTY_SESSION : TradingSessionDefinition :=
  {| name := "empty";
     market := us;
     timeZone := "America/New_York";
     windows := [];
     supportsDst := None;
     description := None |}.

Definition CATALOG_WITH_EMPTY : list TradingSessionDefinition :=
  EMPTY_SESSION :: SESSION_DEFINITIONS.

Definition ORDER_WITH_EMPTY : list string := "empty" :: US_SESSION_ORDER.

(** ** Views of the catalog *)

(** What the interoperating callers read of a definition: its name, its
    zone, its windows and its daylight-saving flag. *)
Definition summary (d : TradingSessionDefinition)
  : string * string * list (string * string) * option bool :=
  (name d, timeZone d, map (fun w => (start w, end_ w)) (windows d),
   supportsDst d).

(** The windows of a definition in minutes of the day. *)
Definition windowMinutes (d : TradingSessionDefinition) : list (num * num) :=
  map (fun w => (timeStringToMinutes (start w), timeStringToMinutes (end_ w)))
    (windows d).

(** ** The market clock cards and the session dialog

    The callers of the snapshot functions in the application shell:
    [SessionCardRow] and the rows of the session dialog. *)

Definition MARKET_CLOSED : string := "休市".

(** [snapshot.current?.name ?? "休市"] *)
Definition cardStatus (snapshot : SessionSnapshot) : string :=
  orElse (option_map name (current snapshot)) MARKET_CLOSED.

(** The line terminators, which [.] of a regular expression does not
    match: LF, CR, U+2028 and U+2029 (the last two in UTF-8). *)
Definition LINE_SEPARATOR : string :=
  String "226" (String "128" (String "168" "")).

Definition PARAGRAPH_SEPARATOR : string :=
  String "226" (String "128" (String "169" "")).

Definition atLineTerminator (s : string) : bool :=
  prefix (String "010" "") s || prefix (String "013" "") s
  || prefix LINE_SEPARATOR s || prefix PARAGRAPH_SEPARATOR s.

(** What is left of [s] once a greedy [.*] has matched at its start. *)
Fixpoint fromLineEnd (s : string) : string :=
  if atLineTerminator s then s
  else match s with
       | String _ rest => fromLineEnd rest
       | EmptyString => EmptyString
       end.

Fixpoint drop (n : nat) (s : string) : string :=
  match n, s with
  | S k, String _ rest => drop k rest
  | _, _ => s
  end.

(** [label.replace(/(夏令时|冬令时).*/, "$1")]: at the leftmost place where
    one of the two words stands, the word is kept and the rest of the line
    is removed.  Each word is nine bytes long. *)
Fixpoint replaceSeason (label : string) : string :=
  if prefix "夏令时" label
  then "夏令时" ++ fromLineEnd (drop 9 label)
  else if prefix "冬令时" label
  then "冬令时" ++ fromLineEnd (drop 9 label)
  else match label with
       | String c rest => String c (replaceSeason rest)
       | EmptyString => EmptyString
       end.

Definition dstDisplay (snapshot : SessionSnapshot) : string :=
  replaceSeason (dstLabel snapshot).

(** The first [n] bytes of a string. *)
Fixpoint firstBytes (n : nat) (s : string) : string :=
  match n, s with
  | S k, String c rest => String c (firstBytes k rest)
  | _, _ => EmptyString
  end.

(** The text after the local time on a card:
    [showDst ? `（${dstDisplay}）` : ""]. *)
Definition cardSuffix (showDst : bool) (snapshot : SessionSnapshot) : string :=
  if showDst then "（" ++ dstDisplay snapshot ++ "）" else "".

(** [session.name === currentSession], where [currentSession] is
    [snapshot.current?.name]: the row of the dialog that is lit. *)
Definition rowIsActive (snapshot : SessionSnapshot)
    (session : TradingSessionDefinition) : bool :=
  match option_map name (current snapshot) with
  | Some currentSession => String.eqb (name session) currentSession
  | None => false
  end.

(** ** Further runtimes for the edge cases *)

(** A runtime whose formatter yields no part at all. *)
Definition NO_PARTS_RUNTIME : Platform :=
  Build_Platform num (fun date => date) Ref.getUTCFullYear Ref.Date_UTC
    Ref.Date_parse Ref.toLocaleString (fun _ _ _ => []) (fun _ _ _ => "").

(** A runtime whose hour and minute fields are not numeric. *)
Definition GARBLED_RUNTIME : Platform :=
  Build_Platform num (fun date => date) Ref.getUTCFullYear Ref.Date_UTC
    Ref.Date_parse Ref.toLocaleString
    (fun _ _ _ => [Ref.part "hour" "--"; Ref.part "literal" ":";
                   Ref.part "minute" "--"])
    (fun _ _ _ => "--:--").

(** A runtime without zone abbreviations that cannot read back the text
    of [toLocaleString]: [new Date(text)] is an invalid date. *)
Definition UNPARSED_RUNTIME : Platform :=
  Build_Platform num (fun date => date) Ref.getUTCFullYear Ref.Date_UTC
    (fun _ => NaN) Ref.toLocaleString (Ref.formatToParts false)
    (Ref.format false).

(** [new Date(text)] on a host whose zone is [host]: the wall clock of
    the text is a local time of that zone. *)
Definition Date_parse_on (host text : string) : num :=
  match Ref.Date_parse text with
  | Num wall =>
      let guess := wall - Ref.zoneOffset host wall * 60000 in
      Num (wall - Ref.zoneOffset host guess * 60000)
  | NaN => NaN
  end.

(** The reference runtime on a host in zone [host]; only [new Date(text)]
    depends on the host.  On a host in UTC it is [Ref.runtime]. *)
Definition HOSTED_RUNTIME (host : string) (abbreviations : bool) : Platform :=
  Build_Platform num (fun date => date) Ref.getUTCFullYear Ref.Date_UTC
    (Date_parse_on host) Ref.toLocaleString
    (Ref.formatToParts abbreviations) (Ref.format abbreviations).

(** Half a second before and half a second after the start of daylight
    time in New York in 2024. *)
Definition JUST_BEFORE_SPRING_FORWARD : num :=
  num_add AFTER_SPRING_FORWARD (Num (-500)).

Definition JUST_AFTER_SPRING_FORWARD : num :=
  num_add AFTER_SPRING_FORWARD (Num 500).

(** A window written without a colon, and a window of no length. *)
Definition MALFORMED_WINDOW : TradingWindow :=
  {| start := "0930"; end_ := "16:00" |}.

Definition POINT_WINDOW : TradingWindow :=
  {| start := "09:30"; end_ := "09:30" |}.

(** The reverse of the US overnight window. *)
Definition DAY_WINDOW : TradingWindow :=
  {| start := "04:00"; end_ := "20:00" |}.

(** A US session that the order table does not name, and a table that
    holds it. *)
Definition UNLISTED_SESSION : TradingSessionDefinition :=
  {| name := "extra";
     market := us;
     timeZone := "America/New_York";
     windows := [ {| start := "00:00"; end_ := "23:59" |} ];
     supportsDst := None;
     description := None |}.

Definition CATALOG_WITH_UNLISTED : list TradingSessionDefinition :=
  UNLISTED_SESSION :: SESSION_DEFINITIONS.

(** ** The backtest page: strategy parameters, sorting, chart range

    The helpers of the backtest page that the shell mounts.  The numbers of
    strategy parameters are floating-point numbers: their type and the
    operations the code applies to them are taken from the runtime, as a
    [Numbers] record.  The positions of the chart range are the integer
    positions of a range slider. *)

Module Backtest.

Record Numbers : Type := {
  number : Type;
  (** the literal [0] *)
  zero : number;
  (** [Number.NaN] *)
  nan : number;
  (** [Number(text)] *)
  Number_ofString : string -> number;
  (** [Number.isFinite(x)] *)
  isFinite : number -> bool;
  (** [Math.round(x)] *)
  Math_round : number -> number;
  (** [String(x)] *)
  String_ofNumber : number -> string
}.

(** [s.toLowerCase()] on the ASCII letters. *)
Definition lowerChar (c : ascii) : ascii :=
  let n := nat_of_ascii c in
  if (Nat.leb 65 n && Nat.leb n 90)%bool then ascii_of_nat (n + 32) else c.

Fixpoint toLowerCase (s : string) : string :=
  match s with
  | String c rest => String (lowerChar c) (toLowerCase rest)
  | EmptyString => EmptyString
  end.

(** An object used as a table from names to texts, as its own properties,
    the latest assignment first; the order of the keys is not modelled. *)
Definition Table : Type := list (string * string).

(** [acc[key] = value] on a plain object: assigning a text to [__proto__]
    goes to the prototype setter and leaves the object as it is. *)
Definition setProperty (acc : Table) (key value : string) : Table :=
  if String.eqb key "__proto__" then acc else (key, value) :: acc.

(** The own property [key] of the object, if it has one. *)
Fixpoint getOwnProperty (acc : Table) (key : string) : option string :=
  match acc with
  | (k, v) :: rest =>
      if String.eqb k key then Some v else getOwnProperty rest key
  | [] => None
  end.

Section Parameters.

Variable N : Numbers.

(** A value of a parameter's default or of a coerced parameter. *)
Inductive Value : Type :=
| VUndefined
| VNull
| VBoolean (b : bool)
| VNumber (x : number N)
| VString (s : string).

Record StrategyParameter : Type := {
  name : string;
  parameter_type : string;
  description : string;
  default : Value;
  minimum : option (number N);
  maximum : option (number N)
}.

Record Strategy : Type := {
  strategy_id : string;
  strategy_name : string;
  strategy_description : string;
  parameters : list StrategyParameter
}.

(** The text [buildDefaultStrategyParams] stores for a parameter. *)
Definition defaultText (parameter : StrategyParameter) : string :=
  match default parameter with
  | VUndefined | VNull => ""
  | VBoolean defaultValue => if defaultValue then "true" else "false"
  | VNumber defaultValue => String_ofNumber N defaultValue
  | VString defaultValue => defaultValue
  end.

Definition buildDefaultStrategyParams (strategy : option Strategy) : Table :=
  match strategy with
  | None => []
  | Some strategy =>
      fold_left
        (fun acc parameter =>
           setProperty acc (name parameter) (defaultText parameter))
        (parameters strategy) []
  end.

Definition coerceStrategyParameterValue (parameter : StrategyParameter)
    (rawValue : option string) : Value :=
  let type := toLowerCase (parameter_type parameter) in
  if String.eqb type "int" || String.eqb type "integer" then
    let parsed := match rawValue with
                  | Some text => Number_ofString N text
                  | None => nan N
                  end in
    if isFinite N parsed then VNumber (Math_round N parsed)
    else match default parameter with
         | VNumber defaultValue => VNumber (Math_round N defaultValue)
         | _ => VNumber (zero N)
         end
  else if String.eqb type "float" || String.eqb type "double"
          || String.eqb type "number" then
    let parsed := match rawValue with
                  | Some text => Number_ofString N text
                  | None => nan N
                  end in
    if isFinite N parsed then VNumber parsed
    else match default parameter with
         | VNumber defaultValue => VNumber defaultValue
         | _ => VNumber (zero N)
         end
  else if String.eqb type "bool" || String.eqb type "boolean" then
    match rawValue with
    | Some text =>
        if String.eqb text "true" || String.eqb text "false"
        then VBoolean (String.eqb text "true")
        else match default parameter with
             | VBoolean defaultValue => VBoolean defaultValue
             | _ => VBoolean false
             end
    | None =>
        match default parameter with
        | VBoolean defaultValue => VBoolean defaultValue
        | _ => VBoolean false
        end
    end
  else
    match rawValue with
    | Some text => VString text
    | None =>
        match default parameter with
        | VUndefined | VNull => VString ""
        | VBoolean defaultValue =>
            VString (if defaultValue then "true" else "false")
        | VNumber defaultValue => VString (String_ofNumber N defaultValue)
        | VString defaultValue => VString defaultValue
        end
    end.

(** The kinds of value a coerced parameter can have, and the kind a
    parameter type asks for. *)
Inductive Kind : Type := KNumber | KBoolean | KString.

Definition kindOf (v : Value) : option Kind :=
  match v with
  | VNumber _ => Some KNumber
  | VBoolean _ => Some KBoolean
  | VString _ => Some KString
  | VUndefined | VNull => None
  end.

Definition declaredKind (parameter : StrategyParameter) : Kind :=
  let type := toLowerCase (parameter_type parameter) in
  if existsb (String.eqb type) ["int"; "integer"; "float"; "double"; "number"]
  then KNumber
  else if existsb (String.eqb type) ["bool"; "boolean"] then KBoolean
  else KString.

End Parameters.

Arguments VUndefined {N}.
Arguments VNull {N}.
Arguments VBoolean {N} b.
Arguments VNumber {N} x.
Arguments VString {N} s.

(** *** Sorting of the task table *)

Inductive SortField : Type := created_at | total_return | win_rate | task_id.

Inductive SortDirection : Type := asc | desc.

Record SortConfig : Type := {
  field : SortField;
  direction : SortDirection
}.

Definition SortField_eqb (a b : SortField) : bool :=
  match a, b with
  | created_at, created_at | total_return, total_return
  | win_rate, win_rate | task_id, task_id => true
  | _, _ => false
  end.

(** The state update of [toggleSort]. *)
Definition toggleSort (field' : SortField) (prev : SortConfig) : SortConfig :=
  if SortField_eqb (field prev) field'
  then {| field := field';
          direction := match direction prev with
                       | asc => desc
                       | desc => asc
                       end |}
  else {| field := field';
          direction := match field' with
                       | task_id => asc
                       | _ => desc
                       end |}.

Definition getSortIndicator (sortConfig : SortConfig) (field' : SortField)
  : string :=
  if negb (SortField_eqb (field sortConfig) field') then ""
  else match direction sortConfig with
       | asc => "↑"
       | desc => "↓"
       end.

(** *** The range of the chart *)

Record ChartRange : Type := {
  start : Z;
  end_ : Z
}.

(** [selectedData ? Math.max(selectedData.data.length - 1, 0) : 0] *)
Definition sliderMax {A : Type} (selectedData : option (list A)) : Z :=
  match selectedData with
  | Some data => Z.max (Z.of_nat (List.length data) - 1) 0
  | None => 0
  end.

(** The range set when another data set is selected. *)
Definition resetRange {A : Type} (selectedData : option (list A))
  : ChartRange :=
  match selectedData with
  | None => {| start := 0; end_ := 0 |}
  | Some data =>
      if Z.of_nat (List.length data) =? 0
      then {| start := 0; end_ := 0 |}
      else
        let maxIndex := Z.of_nat (List.length data) - 1 in
        {| start := 0; end_ := maxIndex |}
  end.

(** The state update of the slider of the start. *)
Definition onStartChange (value sliderMax' : Z) (prev : ChartRange)
  : ChartRange :=
  let clamped := Z.max 0 (Z.min value sliderMax') in
  if clamped >? end_ prev
  then {| start := clamped; end_ := clamped |}
  else {| start := clamped; end_ := end_ prev |}.

(** The state update of the slider of the end. *)
Definition onEndChange (value sliderMax' : Z) (prev : ChartRange)
  : ChartRange :=
  let clamped := Z.max (start prev) (Z.min value sliderMax') in
  {| start := start prev; end_ := clamped |}.

(** [array.slice(from, to)] for integer bounds. *)
Definition relativeIndex (len i : Z) : Z :=
  if i <? 0 then Z.max (len + i) 0 else Z.min i len.

Definition slice {A : Type} (array : list A) (from to : Z) : list A :=
  let len := Z.of_nat (List.length array) in
  let first := relativeIndex len from in
  let final := relativeIndex len to in
  firstn (Z.to_nat (final - first)) (skipn (Z.to_nat first) array).

(** [chartData]; [convert] is the rewriting of a point with a numeric
    price. *)
Definition chartData {A : Type} (convert : A -> A)
    (selectedData : option (list A)) (chartRange : ChartRange) : list A :=
  match selectedData with
  | None => []
  | Some data =>
      let len := Z.of_nat (List.length data) in
      if len =? 0 then []
      else
        let safeStart := Z.max 0 (Z.min (start chartRange) (len - 1)) in
        let safeEnd := Z.max safeStart (Z.min (end_ chartRange) (len - 1)) in
        map convert (slice data safeStart (safeEnd + 1))
  end.

(** The chart range is in order and within the slider. *)
Definition rangeInBounds (sliderMax' : Z) (r : ChartRange) : Prop :=
  0 <= start r /\ start r <= end_ r /\ end_ r <= sliderMax'.

(** The integers among the numbers, for running the helpers. *)
Definition INTEGERS : Numbers :=
  {| number := num;
     zero := Num 0;
     nan := NaN;
     Number_ofString := Number;
     isFinite := fun x => match x with Num _ => true | NaN => false end;
     Math_round := fun x => x;
     String_ofNumber := fun x => match x with
                                 | Num z => Ref.decimal z
                                 | NaN => "NaN"
                                 end |}.

(** A sample strategy over the integers: an integer window, a boolean
    switch and a free text. *)
Definition WINDOW_PARAMETER : StrategyParameter INTEGERS :=
  {| name := "window";
     parameter_type := "Int";
     description := "";
     default := VNumber (N := INTEGERS) (Num 20);
     minimum := None;
     maximum := None |}.

Definition SHORTING_PARAMETER : StrategyParameter INTEGERS :=
  {| name := "allow_short";
     parameter_type := "bool";
     description := "";
     default := VBoolean true;
     minimum := None;
     maximum := None |}.

Definition LABEL_PARAMETER : StrategyParameter INTEGERS :=
  {| name := "label";
     parameter_type := "str";
     description := "";
     default := VString "base";
     minimum := None;
     maximum := None |}.

Definition SAMPLE_STRATEGY : Strategy INTEGERS :=
  {| strategy_id := "s1";
     strategy_name := "sample";
     strategy_description := "";
     parameters := [WINDOW_PARAMETER; SHORTING_PARAMETER; LABEL_PARAMETER] |}.

End Backtest.

(** The parts [getMinutesInTimeZone] asks the formatter for. *)
Definition hourMinuteParts (P : Platform) (date : Date P)
    (timeZone : string) : list Intl.Part :=
  formatToParts P "zh-CN"
    {| Intl.timeZone := timeZone;
       Intl.hour12 := Some false;
       Intl.month := None;
       Intl.day := None;
       Intl.hour := Some "2-digit";
       Intl.minute := Some "2-digit";
       Intl.second := None;
       Intl.timeZoneName := None |} date.

(** ** The embedding at work *)

Example parse_0930 : timeStringToMinutes "09:30" = Num 570.
Proof. reflexivity. Qed.

Example parse_no_colon : timeStringToMinutes "0930" = NaN.
Proof. reflexivity. Qed.

Example US_OVERNIGHT_in_table : sessionNamed "美股夜盘" = Some US_OVERNIGHT.
Proof. reflexivity. Qed.

Example HK_REGULAR_in_table : sessionNamed "港股盘中" = Some HK_REGULAR.
Proof. reflexivity. Qed.

Example US_PREMARKET_is_first :
  nth_error (marketDefinitions us) 0 = Some US_PREMARKET.
Proof. reflexivity. Qed.

Example parseInt_prefix : parseInt " 12px" = Num 12.
Proof. reflexivity. Qed.

Example Number_two_digit : Number "08" = Num 8.
Proof. reflexivity. Qed.

(** 2024-06-15 14:00 in New York: regular session, daylight time. *)
Example us_regular_in_june :
  getUsSessionSnapshot (Ref.runtime true) (Ref.utc 2024 6 15 18 0)
  = {| current := sessionNamed "美股盘中";
       localTime := "06/15 14:00:00";
       dstLabel := "夏令时 (DST)" |}.
Proof. reflexivity. Qed.

(** On the reference runtime, whose system zone is UTC, the offset of New
    York is 300 minutes in January and 240 in July. *)
Example new_york_offsets :
  getTimeZoneOffsetMinutes (Ref.runtime true) (Ref.utc 2024 1 1 0 0)
    "America/New_York" = RNum (18000000 # 60000)
  /\ getTimeZoneOffsetMinutes (Ref.runtime true) (Ref.utc 2024 7 1 0 0)
       "America/New_York" = RNum (14400000 # 60000).
Proof. split; reflexivity. Qed.

(** ** Window matching: basic facts *)

Lemma windowContains_Num (window : TradingWindow) (s e m : Z) :
  timeStringToMinutes (start window) = Num s ->
  timeStringToMinutes (end_ window) = Num e ->
  windowContains (Num m) window
  = if s <=? e then (s <=? m) && (m <? e) else (s <=? m) || (m <? e).
Proof.
  intros Hs He. unfold windowContains. rewrite Hs, He. reflexivity.
Qed.

Lemma windowContains_iff (window : TradingWindow) (s e m : Z) :
  timeStringToMinutes (start window) = Num s ->
  timeStringToMinutes (end_ window) = Num e ->
  windowContains (Num m) window = true
  <-> (s <= e /\ s <= m < e) \/ (e < s /\ (s <= m \/ m < e)).
Proof.
  intros Hs He. rewrite (windowContains_Num window s e m Hs He).
  destruct (Z.leb_spec s e) as [Hle | Hgt].
  - rewrite andb_true_iff, Z.leb_le, Z.ltb_lt. lia.
  - rewrite orb_true_iff, Z.leb_le, Z.ltb_lt. lia.
Qed.

Lemma windowContains_NaN (window : TradingWindow) :
  windowContains NaN window = false.
Proof.
  unfold windowContains.
  destruct (num_le _ _);
    destruct (timeStringToMinutes (start window));
    destruct (timeStringToMinutes (end_ window)); reflexivity.
Qed.

Lemma isWithinWindow_exists (P : Platform) (date : Date P)
    (definition : TradingSessionDefinition) :
  isWithinWindow P date definition = true
  <-> exists window,
        In window (windows definition)
        /\ windowContains
             (getMinutesInTimeZone P date (timeZone definition)) window = true.
Proof.
  unfold isWithinWindow. rewrite existsb_exists. reflexivity.
Qed.

(** [find] returns the first element that satisfies the test. *)
Lemma find_first {A : Type} (f : A -> bool) (l : list A) (x : A) :
  find f l = Some x
  <-> exists earlier later,
        l = (earlier ++ x :: later)%list
        /\ (forall y, In y earlier -> f y = false)
        /\ f x = true.
Proof.
  split.
  - induction l as [| a l IH]; simpl; [discriminate |].
    destruct (f a) eqn:Hfa.
    + intros [= <-]. exists [], l. repeat split; [intros y [] | exact Hfa].
    + intros Hfind. destruct (IH Hfind) as (earlier & later & -> & Hno & Hx).
      exists (a :: earlier), later. repeat split; [| exact Hx].
      intros y [<- | Hy]; [exact Hfa | exact (Hno y Hy)].
  - intros (earlier & later & -> & Hno & Hx).
    induction earlier as [| a earlier IH]; simpl.
    + rewrite Hx. reflexivity.
    + rewrite (Hno a (or_introl eq_refl)). apply IH.
      intros y Hy. apply Hno. right. exact Hy.
Qed.

Lemma find_none_iff {A : Type} (f : A -> bool) (l : list A) :
  find f l = None <-> forall y, In y l -> f y = false.
Proof.
  split.
  - intros H y Hy. exact (find_none f l H y Hy).
  - induction l as [| a l IH]; simpl; [reflexivity |].
    intros H. rewrite (H a (or_introl eq_refl)).
    apply IH. intros y Hy. apply H. right. exact Hy.
Qed.

Lemma us_definitions :
  definitionsInOrder US_SESSION_ORDER SESSION_DEFINITIONS
  = listSessionsByMarket us.
Proof. reflexivity. Qed.

Lemma hk_definitions :
  definitionsInOrder HK_SESSION_ORDER SESSION_DEFINITIONS
  = listSessionsByMarket hk.
Proof. reflexivity. Qed.

(** Replaces each configured window by its bounds in minutes. *)
Ltac window_to_minutes :=
  repeat match goal with
    | |- context [windowContains (Num ?m) ?w] =>
        match eval vm_compute in
              (timeStringToMinutes (start w), timeStringToMinutes (end_ w)) with
        | (Num ?s, Num ?e) =>
            rewrite (windowContains_Num w s e m eq_refl eq_refl)
        end
    end.

(** Which sessions of each market are active, as comparisons on the minute
    of the day. *)
Lemma us_activity (P : Platform) (date : Date P) (m : Z) :
  getMinutesInTimeZone P date "America/New_York" = Num m ->
  map (isWithinWindow P date) (listSessionsByMarket us)
  = [ (240 <=? m) && (m <? 570);
      (570 <=? m) && (m <? 960);
      (960 <=? m) && (m <? 1200);
      (1200 <=? m) || (m <? 240) ].
Proof.
  intros Hm. unfold isWithinWindow.
  change (listSessionsByMarket us) with (firstn 4 SESSION_DEFINITIONS).
  cbn [SESSION_DEFINITIONS firstn map timeZone windows existsb].
  rewrite Hm.
  window_to_minutes.
  cbn [Z.leb Z.compare Pos.compare Pos.compare_cont].
  rewrite !orb_false_r. reflexivity.
Qed.

Lemma hk_activity (P : Platform) (date : Date P) (m : Z) :
  getMinutesInTimeZone P date "Asia/Hong_Kong" = Num m ->
  map (isWithinWindow P date) (listSessionsByMarket hk)
  = [ ((570 <=? m) && (m <? 720)) || ((780 <=? m) && (m <? 960));
      (1035 <=? m) || (m <? 180) ].
Proof.
  intros Hm. unfold isWithinWindow.
  change (listSessionsByMarket hk) with (skipn 4 SESSION_DEFINITIONS).
  cbn [SESSION_DEFINITIONS skipn map timeZone windows existsb].
  rewrite Hm.
  window_to_minutes.
  cbn [Z.leb Z.compare Pos.compare Pos.compare_cont].
  rewrite !orb_false_r. reflexivity.
Qed.

(** ** Window containment *)

(** C1. A window whose start minute is greater than its end minute wraps
    midnight: it contains an instant iff the instant's minute of the day
    [m], read in the zone of the session, satisfies [m >= start] or
    [m < end], and a definition that has such a window is then within its
    windows.  The US overnight window 20:00-04:00 contains 23:59 and 00:01
    and contains neither 04:00 nor 19:59, and an instant at 21:00 in
    America/New_York is classified as the overnight session. *)
Theorem wrapping_window_contains :
  (forall (P : Platform) (date : Date P)
          (definition : TradingSessionDefinition) (window : TradingWindow)
          (s e m : Z),
      In window (windows definition) ->
      timeStringToMinutes (start window) = Num s ->
      timeStringToMinutes (end_ window) = Num e ->
      s > e ->
      getMinutesInTimeZone P date (timeZone definition) = Num m ->
      (windowContains (getMinutesInTimeZone P date (timeZone definition))
         window = true
       <-> m >= s \/ m < e)
      /\ (m >= s \/ m < e -> isWithinWindow P date definition = true))
  /\ (option_map windows (sessionNamed "美股夜盘") = Some [OVERNIGHT_WINDOW]
      /\ windowContains (timeStringToMinutes "23:59") OVERNIGHT_WINDOW = true
      /\ windowContains (timeStringToMinutes "00:01") OVERNIGHT_WINDOW = true
      /\ windowContains (timeStringToMinutes "04:00") OVERNIGHT_WINDOW = false
      /\ windowContains (timeStringToMinutes "19:59") OVERNIGHT_WINDOW = false)
  /\ (forall (P : Platform) (date : Date P),
         getMinutesInTimeZone P date "America/New_York"
         = timeStringToMinutes "21:00" ->
         current (getUsSessionSnapshot P date) = sessionNamed "美股夜盘"
         /\ option_map name (current (getUsSessionSnapshot P date))
            = Some "美股夜盘").
Proof.
  split; [| split].
  - intros P date definition window s e m Hin Hs He Hwrap Hm.
    assert (Hiff : windowContains (Num m) window = true <-> m >= s \/ m < e).
    { rewrite (windowContains_iff window s e m Hs He). lia. }
    rewrite Hm. split; [exact Hiff |].
    intros Hcond. apply isWithinWindow_exists. exists window.
    rewrite Hm. split; [exact Hin | apply Hiff; exact Hcond].
  - repeat split; reflexivity.
  - intros P date Hm.
    change (timeStringToMinutes "21:00") with (Num 1260) in Hm.
    assert (Hcur : current (getUsSessionSnapshot P date)
                   = sessionNamed "美股夜盘").
    { apply find_first.
      exists (firstn 3 SESSION_DEFINITIONS), [].
      pose proof (us_activity P date 1260 Hm) as Hact.
      change (listSessionsByMarket us)
        with (firstn 3 SESSION_DEFINITIONS
              ++ firstn 1 (skipn 3 SESSION_DEFINITIONS))%list in Hact.
      cbn [SESSION_DEFINITIONS firstn skipn app map] in Hact.
      injection Hact as H1 H2 H3 H4.
      split; [reflexivity | split].
      - intros y Hy. cbn [SESSION_DEFINITIONS firstn In] in Hy.
        destruct Hy as [<- | [<- | [<- | []]]]; assumption.
      - exact H4. }
    split; [exact Hcur | rewrite Hcur; reflexivity].
Qed.

Lemma wrapping_window_contains_witness :
  (windowContains
     (getMinutesInTimeZone (Ref.runtime true) NY_EVENING "America/New_York")
     OVERNIGHT_WINDOW = true
   <-> 1260 >= 1200 \/ 1260 < 240)
  /\ option_map name (current (getUsSessionSnapshot (Ref.runtime true) NY_EVENING))
     = Some "美股夜盘".
Proof.
  split.
  - refine (proj1 (proj1 wrapping_window_contains (Ref.runtime true) NY_EVENING
                     US_OVERNIGHT OVERNIGHT_WINDOW 1200 240 1260 _ _ _ _ _)).
    + simpl. left. reflexivity.
    + reflexivity.
    + reflexivity.
    + reflexivity.
    + reflexivity.
  - refine (proj2 (proj2 (proj2 wrapping_window_contains) (Ref.runtime true)
                     NY_EVENING _)).
    reflexivity.
Defined.

(** C2. A window whose start minute is at most its end minute does not
    wrap: it contains an instant iff the instant's minute of the day [m],
    read in the zone of the session, satisfies [start <= m < end].  The
    interval is half open: at [m = end] the window does not contain the
    instant, and unless another window of the same session contains it, no
    classification selects the session, whatever the order table, the
    catalog and the zone. *)
Theorem plain_window_contains :
  forall (P : Platform) (date : Date P)
         (definition : TradingSessionDefinition) (window : TradingWindow)
         (s e m : Z),
    In window (windows definition) ->
    timeStringToMinutes (start window) = Num s ->
    timeStringToMinutes (end_ window) = Num e ->
    s <= e ->
    getMinutesInTimeZone P date (timeZone definition) = Num m ->
    (windowContains (getMinutesInTimeZone P date (timeZone definition))
       window = true
     <-> s <= m /\ m < e)
    /\ (s <= m /\ m < e -> isWithinWindow P date definition = true)
    /\ (m = e ->
        windowContains (getMinutesInTimeZone P date (timeZone definition))
          window = false
        /\ ((forall other, In other (windows definition) -> other <> window ->
               windowContains (Num m) other = false) ->
            forall order catalog zone,
              current (snapshotOf P order catalog zone date)
              <> Some definition)).
Proof.
  intros P date definition window s e m Hin Hs He Hle Hm.
  assert (Hiff : windowContains (Num m) window = true <-> s <= m /\ m < e).
  { rewrite (windowContains_iff window s e m Hs He). lia. }
  rewrite Hm. split; [exact Hiff | split].
  - intros Hcond. apply isWithinWindow_exists. exists window.
    rewrite Hm. split; [exact Hin | apply Hiff; exact Hcond].
  - intros ->.
    assert (Hout : windowContains (Num e) window = false).
    { apply not_true_is_false. intros Hc. apply Hiff in Hc. lia. }
    split; [exact Hout |].
    intros Hothers order catalog zone Hcur.
    apply find_some in Hcur. destruct Hcur as [_ Hactive].
    apply isWithinWindow_exists in Hactive.
    destruct Hactive as (w & Hw & Hc). rewrite Hm in Hc.
    assert (Hcases : w = window \/ w <> window).
    { destruct window as [ws we], w as [ws' we'].
      destruct (string_dec ws' ws) as [-> | Hn];
        [destruct (string_dec we' we) as [-> | Hn] |];
        [left; reflexivity | right; congruence | right; congruence]. }
    destruct Hcases as [-> | Hne].
    + rewrite Hout in Hc. discriminate.
    + rewrite (Hothers w Hw Hne) in Hc. discriminate.
Qed.

Lemma plain_window_contains_witness :
  windowContains
    (getMinutesInTimeZone (Ref.runtime true) HK_NOON "Asia/Hong_Kong")
    HK_MORNING_WINDOW = false
  /\ current (getHkSessionSnapshot (Ref.runtime true) HK_NOON)
     <> Some HK_REGULAR.
Proof.
  assert (Hend : 720 = 720 ->
            windowContains
              (getMinutesInTimeZone (Ref.runtime true) HK_NOON
                 (timeZone HK_REGULAR)) HK_MORNING_WINDOW = false
            /\ ((forall other, In other (windows HK_REGULAR) ->
                   other <> HK_MORNING_WINDOW ->
                   windowContains (Num 720) other = false) ->
                forall order catalog zone,
                  current (snapshotOf (Ref.runtime true) order catalog zone
                             HK_NOON)
                  <> Some HK_REGULAR)).
  { refine (proj2 (proj2
              (plain_window_contains (Ref.runtime true) HK_NOON HK_REGULAR
                 HK_MORNING_WINDOW 570 720 720 _ _ _ _ _))).
    - simpl. left. reflexivity.
    - reflexivity.
    - reflexivity.
    - discriminate.
    - reflexivity. }
  destruct (Hend eq_refl) as [Hout Hnot].
  split; [exact Hout |].
  apply Hnot.
  intros other [<- | [<- | []]] Hne; [contradiction | reflexivity].
Defined.

(** ** Session selection *)

(** C3. The classifier of a market goes through the market's definitions
    in display order (US: pre-market, regular, after-hours, overnight; HK:
    regular, evening) and returns the first one that is within its
    windows: the result is a definition [d] exactly when the definitions
    listed before [d] are all inactive and [d] is active.  Hence when two
    listed sessions are both active and nothing before the earlier one is,
    the earlier one is returned. *)
Theorem first_listed_session_wins :
  (map name (marketDefinitions us)
   = ["美股盘前"; "美股盘中"; "美股盘后"; "美股夜盘"]
   /\ map name (marketDefinitions hk) = ["港股盘中"; "港股夜盘"])
  /\ (forall (P : Platform) (market' : Market) (date : Date P),
         current (classify P market' date)
         = find (isWithinWindow P date) (marketDefinitions market'))
  /\ (forall (P : Platform) order catalog zone (date : Date P) d,
         current (snapshotOf P order catalog zone date) = Some d
         <-> exists earlier later,
               definitionsInOrder order catalog
               = (earlier ++ d :: later)%list
               /\ (forall y, In y earlier -> isWithinWindow P date y = false)
               /\ isWithinWindow P date d = true)
  /\ (forall (P : Platform) order catalog zone (date : Date P)
             before first between second after,
         definitionsInOrder order catalog
         = (before ++ first :: between ++ second :: after)%list ->
         (forall y, In y before -> isWithinWindow P date y = false) ->
         isWithinWindow P date first = true ->
         isWithinWindow P date second = true ->
         current (snapshotOf P order catalog zone date) = Some first).
Proof.
  split; [split; reflexivity | split; [| split]].
  - intros P [] date; reflexivity.
  - intros P order catalog zone date d. apply find_first.
  - intros P order catalog zone date before first between second after
           Hlist Hbefore Hfirst _.
    apply find_first. exists before, (between ++ second :: after)%list.
    repeat split; assumption.
Qed.

Lemma first_listed_session_wins_witness :
  current (snapshotOf (Ref.runtime true) ["long"; "short"]
             [SHORT_SESSION; LONG_SESSION] "UTC" UTC_HALF_PAST_TEN)
  = Some LONG_SESSION
  /\ current (snapshotOf (Ref.runtime true) ["short"; "long"]
                [SHORT_SESSION; LONG_SESSION] "UTC" UTC_HALF_PAST_TEN)
     = Some SHORT_SESSION.
Proof.
  split.
  - refine (proj2 (proj2 (proj2 first_listed_session_wins))
              (Ref.runtime true) ["long"; "short"]
              [SHORT_SESSION; LONG_SESSION] "UTC" UTC_HALF_PAST_TEN
              [] LONG_SESSION [] SHORT_SESSION [] _ _ _ _).
    + reflexivity.
    + intros y [].
    + reflexivity.
    + reflexivity.
  - refine (proj2 (proj2 (proj2 first_listed_session_wins))
              (Ref.runtime true) ["short"; "long"]
              [SHORT_SESSION; LONG_SESSION] "UTC" UTC_HALF_PAST_TEN
              [] SHORT_SESSION [] LONG_SESSION [] _ _ _ _).
    + reflexivity.
    + intros y [].
    + reflexivity.
    + reflexivity.
Defined.

(** ** The Hong Kong label *)

(** C5. Whatever the runtime and the instant, the snapshot of the Hong Kong
    market carries the fixed standard-time label, which is not the daylight
    label: every Hong Kong definition declares [supportsDst = false], for
    each of them [computeDstLabel] answers the fixed label without
    consulting the runtime, and the snapshot's label is computed from the
    first of them. *)
Theorem hk_label_is_fixed :
  forall (P : Platform) (date : Date P),
    dstLabel (getHkSessionSnapshot P date) = "标准时间（无夏令时）"
    /\ dstLabel (getHkSessionSnapshot P date) <> LABEL_DAYLIGHT
    /\ dstLabel (getHkSessionSnapshot P date)
       = computeDstLabel P (nth_error (marketDefinitions hk) 0) date
    /\ Forall (fun d => supportsDst d = Some false
                        /\ computeDstLabel P (Some d) date = LABEL_NO_DST)
         (marketDefinitions hk).
Proof.
  intros P date. repeat split.
  - discriminate.
  - repeat constructor.
Qed.

(** ** The catalog *)

(** C7. Listing the sessions of a market returns the canonical
    configuration in display order.  US: pre-market 04:00-09:30, regular
    09:30-16:00, after-hours 16:00-20:00, overnight 20:00-04:00, all in
    America/New_York.  HK: regular with the windows 09:30-12:00 and
    13:00-16:00, then evening 17:15-03:00, both in Asia/Hong_Kong and
    declared without daylight saving.  The listing is in the order in which
    the classifier goes through the definitions. *)
Theorem catalog_is_canonical :
  map summary (listSessionsByMarket us)
  = [ ("美股盘前", "America/New_York", [("04:00", "09:30")], None);
      ("美股盘中", "America/New_York", [("09:30", "16:00")], None);
      ("美股盘后", "America/New_York", [("16:00", "20:00")], None);
      ("美股夜盘", "America/New_York", [("20:00", "04:00")], None) ]
  /\ map windowMinutes (listSessionsByMarket us)
     = [ [(Num 240, Num 570)]; [(Num 570, Num 960)];
         [(Num 960, Num 1200)]; [(Num 1200, Num 240)] ]
  /\ map summary (listSessionsByMarket hk)
     = [ ("港股盘中", "Asia/Hong_Kong",
          [("09:30", "12:00"); ("13:00", "16:00")], Some false);
         ("港股夜盘", "Asia/Hong_Kong", [("17:15", "03:00")], Some false) ]
  /\ map windowMinutes (listSessionsByMarket hk)
     = [ [(Num 570, Num 720); (Num 780, Num 960)]; [(Num 1035, Num 180)] ]
  /\ map name (listSessionsByMarket us) = US_SESSION_ORDER
  /\ map name (listSessionsByMarket hk) = HK_SESSION_ORDER
  /\ (forall market', listSessionsByMarket market' = marketDefinitions market')
  /\ (listSessionsByMarket us ++ listSessionsByMarket hk)%list
     = SESSION_DEFINITIONS.
Proof.
  repeat split. intros []; reflexivity.
Qed.

(** ** Closed markets, disjoint windows, coverage *)

(** Settles every comparison of the goal that [lia] decides. *)
Ltac settle_comparisons :=
  repeat match goal with
    | |- context [?a <=? ?b] =>
        first [ rewrite (proj2 (Z.leb_le a b)) by lia
              | rewrite (proj2 (Z.leb_gt a b)) by lia ]
    | |- context [?a <? ?b] =>
        first [ rewrite (proj2 (Z.ltb_lt a b)) by lia
              | rewrite (proj2 (Z.ltb_ge a b)) by lia ]
    end.

(** Turns the hypotheses that a configured window contains minute [m] into
    inequalities on [m]. *)
Ltac windows_to_inequalities :=
  repeat match goal with
    | H : windowContains (Num ?m) ?w = true |- _ =>
        match eval vm_compute in
              (timeStringToMinutes (start w), timeStringToMinutes (end_ w)) with
        | (Num ?s, Num ?e) =>
            apply (windowContains_iff w s e m eq_refl eq_refl) in H
        end
    end.

Lemma isWithinWindow_NaN (P : Platform) (date : Date P)
    (definition : TradingSessionDefinition) :
  getMinutesInTimeZone P date (timeZone definition) = NaN ->
  isWithinWindow P date definition = false.
Proof.
  intros Hm. unfold isWithinWindow. rewrite Hm.
  induction (windows definition) as [| w ws IH]; [reflexivity |].
  simpl. rewrite windowContains_NaN. exact IH.
Qed.

(** C8. When no window of any definition of a market contains the
    instant's minute of the day, the classifier returns a snapshot without
    a current session; the snapshot still carries the local time, formatted
    in the market's zone, and the label computed from the market's first
    definition.  An instant at 12:30 in Asia/Hong_Kong, in the lunch break,
    has no current session and the fixed standard-time label. *)
Theorem closed_market_is_a_result :
  (forall (P : Platform) (market' : Market) (date : Date P),
      (forall d w,
          In d (marketDefinitions market') -> In w (windows d) ->
          windowContains (getMinutesInTimeZone P date (timeZone d)) w = false) ->
      current (classify P market' date) = None
      /\ localTime (classify P market' date)
         = formatLocalTime P date (marketZone market')
      /\ dstLabel (classify P market' date)
         = computeDstLabel P (nth_error (marketDefinitions market') 0) date)
  /\ (forall (P : Platform) (date : Date P),
         getMinutesInTimeZone P date "Asia/Hong_Kong"
         = timeStringToMinutes "12:30" ->
         current (getHkSessionSnapshot P date) = None
         /\ localTime (getHkSessionSnapshot P date)
            = formatLocalTime P date "Asia/Hong_Kong"
         /\ dstLabel (getHkSessionSnapshot P date) = "标准时间（无夏令时）").
Proof.
  split.
  - intros P market' date Hnone.
    assert (Hcur : find (isWithinWindow P date) (marketDefinitions market')
                   = None).
    { apply find_none_iff. intros d Hd.
      apply not_true_is_false. intros Hactive.
      apply isWithinWindow_exists in Hactive.
      destruct Hactive as (w & Hw & Hc).
      rewrite (Hnone d w Hd Hw) in Hc. discriminate. }
    destruct market'; (split; [exact Hcur | split; reflexivity]).
  - intros P date Hm.
    change (timeStringToMinutes "12:30") with (Num 750) in Hm.
    split; [| split; reflexivity].
    apply find_none_iff. intros d Hd.
    pose proof (hk_activity P date 750 Hm) as Hact.
    change (definitionsInOrder HK_SESSION_ORDER SESSION_DEFINITIONS)
      with (skipn 4 SESSION_DEFINITIONS) in Hd.
    change (listSessionsByMarket hk) with (skipn 4 SESSION_DEFINITIONS) in Hact.
    cbn [SESSION_DEFINITIONS skipn map In] in Hd, Hact.
    injection Hact as H1 H2.
    destruct Hd as [<- | [<- | []]]; assumption.
Qed.

Lemma closed_market_is_a_result_witness :
  current (classify (Ref.runtime true) hk HK_LUNCH) = None
  /\ localTime (classify (Ref.runtime true) hk HK_LUNCH) = "03/10 12:30:00"
  /\ dstLabel (classify (Ref.runtime true) hk HK_LUNCH)
     = "标准时间（无夏令时）".
Proof.
  refine (proj1 closed_market_is_a_result (Ref.runtime true) hk HK_LUNCH _).
  intros d w Hd Hw.
  destruct Hd as [<- | [<- | []]].
  - destruct Hw as [<- | [<- | []]]; reflexivity.
  - destruct Hw as [<- | []]; reflexivity.
Defined.

(** An active session of a market of the shipped table is the one the
    market's classifier returns. *)
Lemma active_session_is_current (P : Platform) (market' : Market)
    (date : Date P) (d : TradingSessionDefinition) :
  In d (marketDefinitions market') ->
  isWithinWindow P date d = true ->
  current (classify P market' date) = Some d.
Proof.
  intros Hd Hactive.
  destruct market'.
  + destruct (getMinutesInTimeZone P date "America/New_York") as [| m] eqn:Hm.
    * change (marketDefinitions us) with (firstn 4 SESSION_DEFINITIONS) in Hd.
      cbn [SESSION_DEFINITIONS firstn In] in Hd.
      destruct Hd as [<- | [<- | [<- | [<- | []]]]];
        rewrite isWithinWindow_NaN in Hactive by exact Hm; discriminate.
    * pose proof (us_activity P date m Hm) as Hact.
      change (classify P us date) with (getUsSessionSnapshot P date).
      unfold getUsSessionSnapshot, snapshotOf. cbn [current].
      change (marketDefinitions us) with (firstn 4 SESSION_DEFINITIONS) in Hd.
      change (definitionsInOrder US_SESSION_ORDER SESSION_DEFINITIONS)
        with (firstn 4 SESSION_DEFINITIONS).
      change (listSessionsByMarket us)
        with (firstn 4 SESSION_DEFINITIONS) in Hact.
      cbn [SESSION_DEFINITIONS firstn In map find] in Hd, Hact |- *.
      injection Hact as H1 H2 H3 H4.
      destruct Hd as [<- | [<- | [<- | [<- | []]]]];
        rewrite ?H1, ?H2, ?H3, ?H4; rewrite ?H1, ?H2, ?H3, ?H4 in Hactive;
        rewrite ?andb_true_iff, ?orb_true_iff, ?Z.leb_le, ?Z.ltb_lt
          in Hactive;
        try destruct Hactive as [Hactive | Hactive];
        settle_comparisons; reflexivity.
  + destruct (getMinutesInTimeZone P date "Asia/Hong_Kong") as [| m] eqn:Hm.
    * change (marketDefinitions hk) with (skipn 4 SESSION_DEFINITIONS) in Hd.
      cbn [SESSION_DEFINITIONS skipn In] in Hd.
      destruct Hd as [<- | [<- | []]];
        rewrite isWithinWindow_NaN in Hactive by exact Hm; discriminate.
    * pose proof (hk_activity P date m Hm) as Hact.
      change (classify P hk date) with (getHkSessionSnapshot P date).
      unfold getHkSessionSnapshot, snapshotOf. cbn [current].
      change (marketDefinitions hk) with (skipn 4 SESSION_DEFINITIONS) in Hd.
      change (definitionsInOrder HK_SESSION_ORDER SESSION_DEFINITIONS)
        with (skipn 4 SESSION_DEFINITIONS).
      change (listSessionsByMarket hk)
        with (skipn 4 SESSION_DEFINITIONS) in Hact.
      cbn [SESSION_DEFINITIONS skipn In map find] in Hd, Hact |- *.
      injection Hact as H1 H2.
      destruct Hd as [<- | [<- | []]];
        rewrite ?H1, ?H2; rewrite ?H1, ?H2 in Hactive;
        rewrite ?andb_true_iff, ?orb_true_iff, ?Z.leb_le, ?Z.ltb_lt
          in Hactive;
        try destruct Hactive as [Hactive | Hactive];
        settle_comparisons; reflexivity.
Qed.

(** Proves that a configured window contains minute [m] from inequalities
    on [m]. *)
Ltac window_from_inequalities :=
  match goal with
  | |- windowContains (Num ?m) ?w = true =>
      match eval vm_compute in
            (timeStringToMinutes (start w), timeStringToMinutes (end_ w)) with
      | (Num ?s, Num ?e) =>
          apply (proj2 (windowContains_iff w s e m eq_refl eq_refl)); lia
      end
  end.

(** C9. In the shipped table, a minute of the day lies in at most one
    window of one session of a market: two windows of the market that both
    contain it are the same window of the same session.  A minute on a
    shared boundary belongs to the session that begins there only.  Hence
    any active session of the market is the one the classifier returns. *)
Theorem shipped_windows_are_disjoint :
  (forall (market' : Market) (m : Z) d1 w1 d2 w2,
      In d1 (listSessionsByMarket market') -> In w1 (windows d1) ->
      In d2 (listSessionsByMarket market') -> In w2 (windows d2) ->
      windowContains (Num m) w1 = true ->
      windowContains (Num m) w2 = true ->
      d1 = d2 /\ w1 = w2)
  /\ (sessionsContaining us 240 = ["美股盘前"]
      /\ sessionsContaining us 570 = ["美股盘中"]
      /\ sessionsContaining us 960 = ["美股盘后"]
      /\ sessionsContaining us 1200 = ["美股夜盘"]
      /\ sessionsContaining hk 570 = ["港股盘中"]
      /\ sessionsContaining hk 720 = []
      /\ sessionsContaining hk 780 = ["港股盘中"]
      /\ sessionsContaining hk 960 = []
      /\ sessionsContaining hk 1035 = ["港股夜盘"]
      /\ sessionsContaining hk 180 = [])
  /\ (forall (P : Platform) (market' : Market) (date : Date P) d,
         In d (marketDefinitions market') ->
         isWithinWindow P date d = true ->
         current (classify P market' date) = Some d).
Proof.
  split; [| split].
  - intros market' m d1 w1 d2 w2 Hd1 Hw1 Hd2 Hw2 Hc1 Hc2.
    destruct market'.
    + change (listSessionsByMarket us)
        with (firstn 4 SESSION_DEFINITIONS) in Hd1, Hd2.
      cbn [SESSION_DEFINITIONS firstn In] in Hd1, Hd2.
      destruct Hd1 as [<- | [<- | [<- | [<- | []]]]];
        destruct Hw1 as [<- | []];
        destruct Hd2 as [<- | [<- | [<- | [<- | []]]]];
        destruct Hw2 as [<- | []];
        windows_to_inequalities;
        first [split; reflexivity | exfalso; lia].
    + change (listSessionsByMarket hk)
        with (skipn 4 SESSION_DEFINITIONS) in Hd1, Hd2.
      cbn [SESSION_DEFINITIONS skipn In] in Hd1, Hd2.
      destruct Hd1 as [<- | [<- | []]];
        [destruct Hw1 as [<- | [<- | []]] | destruct Hw1 as [<- | []]];
        (destruct Hd2 as [<- | [<- | []]];
         [destruct Hw2 as [<- | [<- | []]] | destruct Hw2 as [<- | []]]);
        windows_to_inequalities;
        first [split; reflexivity | exfalso; lia].
  - repeat split.
  - intros P market' date d. apply active_session_is_current.
Qed.

Lemma shipped_windows_are_disjoint_witness :
  (US_OVERNIGHT = US_OVERNIGHT /\ OVERNIGHT_WINDOW = OVERNIGHT_WINDOW)
  /\ current (classify (Ref.runtime true) us NY_EVENING) = Some US_OVERNIGHT.
Proof.
  split.
  - refine (proj1 shipped_windows_are_disjoint us 1260
              US_OVERNIGHT OVERNIGHT_WINDOW US_OVERNIGHT OVERNIGHT_WINDOW
              _ _ _ _ _ _).
    + do 3 right. left. reflexivity.
    + left. reflexivity.
    + do 3 right. left. reflexivity.
    + left. reflexivity.
    + reflexivity.
    + reflexivity.
  - refine (proj2 (proj2 shipped_windows_are_disjoint)
              (Ref.runtime true) us NY_EVENING US_OVERNIGHT _ _).
    + do 3 right. left. reflexivity.
    + reflexivity.
Defined.

(** C10. Classifying the US market always returns a session: whatever
    minute of the day the runtime reads for the instant in
    America/New_York, one of the four US sessions is current.  The windows
    04:00-09:30, 09:30-16:00, 16:00-20:00 and 20:00-04:00 cover every
    minute, in particular each of the 1440 minutes 0..1439 of a day. *)
Theorem us_market_never_closed :
  (forall (P : Platform) (date : Date P) (m : Z),
      getMinutesInTimeZone P date "America/New_York" = Num m ->
      exists d,
        current (getUsSessionSnapshot P date) = Some d
        /\ In d (listSessionsByMarket us))
  /\ (forall m : Z,
         exists d w,
           In d (listSessionsByMarket us) /\ In w (windows d)
           /\ windowContains (Num m) w = true)
  /\ (forall m : Z, 0 <= m < 1440 -> sessionsContaining us m <> []).
Proof.
  assert (Hcover : forall m : Z,
             exists d w,
               In d (listSessionsByMarket us) /\ In w (windows d)
               /\ windowContains (Num m) w = true).
  { intros m.
    change (listSessionsByMarket us) with (firstn 4 SESSION_DEFINITIONS).
    cbn [SESSION_DEFINITIONS firstn].
    assert (Hrange : 240 <= m < 570 \/ 570 <= m < 960 \/ 960 <= m < 1200
                     \/ (1200 <= m \/ m < 240)) by lia.
    destruct Hrange as [H | [H | [H | H]]].
    - eexists; eexists; split; [left; reflexivity |].
      split; [left; reflexivity |].
      window_from_inequalities.
    - eexists; eexists; split; [right; left; reflexivity |].
      split; [left; reflexivity |].
      window_from_inequalities.
    - eexists; eexists; split; [do 2 right; left; reflexivity |].
      split; [left; reflexivity |].
      window_from_inequalities.
    - eexists; eexists; split; [do 3 right; left; reflexivity |].
      split; [left; reflexivity |].
      window_from_inequalities. }
  split; [| split; [exact Hcover |]].
  - intros P date m Hm.
    destruct (Hcover m) as (d & w & Hd & Hw & Hc).
    exists d. split; [| exact Hd].
    apply (active_session_is_current P us date d Hd).
    apply isWithinWindow_exists. exists w. split; [exact Hw |].
    assert (Hzone : timeZone d = "America/New_York").
    { change (listSessionsByMarket us)
        with (firstn 4 SESSION_DEFINITIONS) in Hd.
      cbn [SESSION_DEFINITIONS firstn In] in Hd.
      destruct Hd as [<- | [<- | [<- | [<- | []]]]]; reflexivity. }
    rewrite Hzone, Hm. exact Hc.
  - intros m _ Hempty.
    destruct (Hcover m) as (d & w & Hd & Hw & Hc).
    unfold sessionsContaining in Hempty.
    apply map_eq_nil in Hempty.
    assert (Hin : In d (filter
                          (fun d => existsb (windowContains (Num m)) (windows d))
                          (listSessionsByMarket us))).
    { apply filter_In. split; [exact Hd |].
      apply existsb_exists. exists w. split; assumption. }
    rewrite Hempty in Hin. exact Hin.
Qed.

Lemma us_market_never_closed_witness :
  (exists d,
      current (getUsSessionSnapshot (Ref.runtime true) NY_EVENING) = Some d
      /\ In d (listSessionsByMarket us))
  /\ sessionsContaining us 0 <> [].
Proof.
  split.
  - refine (proj1 us_market_never_closed (Ref.runtime true) NY_EVENING 1260 _).
    reflexivity.
  - refine (proj2 (proj2 us_market_never_closed) 0 _). lia.
Defined.

(** ** Definitions without windows *)

(** C6, counterexample.  A table that holds a session without windows is
    taken as it is, nothing rejects it: the listing returns the session,
    the classifier goes through it, and the snapshot is the one of the
    shipped table. *)
Lemma zero_window_session_is_accepted :
  windows EMPTY_SESSION = []
  /\ listSessionsIn CATALOG_WITH_EMPTY us
     = EMPTY_SESSION :: listSessionsByMarket us
  /\ definitionsInOrder ORDER_WITH_EMPTY CATALOG_WITH_EMPTY
     = EMPTY_SESSION :: marketDefinitions us
  /\ snapshotOf (Ref.runtime true) ORDER_WITH_EMPTY CATALOG_WITH_EMPTY
       "America/New_York" NY_EVENING
     = {| current := Some US_OVERNIGHT;
          localTime := "06/15 21:00:00";
          dstLabel := "夏令时 (DST)" |}.
Proof.
  repeat split.
Qed.

Lemma definitionsInOrder_keeps (order : list string)
    (catalog : list TradingSessionDefinition)
    (definition : TradingSessionDefinition) :
  In (name definition) order ->
  find (fun def => String.eqb (name def) (name definition)) catalog
  = Some definition ->
  In definition (definitionsInOrder order catalog).
Proof.
  intros Hin Hfind. unfold definitionsInOrder.
  induction order as [| n order IH]; [destruct Hin |].
  cbn [map].
  destruct Hin as [-> | Hin].
  - rewrite Hfind. left. reflexivity.
  - destruct (find (fun def => String.eqb (name def) n) catalog);
      cbn [filterDefined]; [right |]; apply IH; exact Hin.
Qed.

(** C6, as the code has it.  The table of sessions is a plain array: no
    step validates it, and a definition without windows is accepted.  The
    listing of its market returns it, the classifier keeps it among the
    definitions it goes through when the order table names it, and it is
    never within its windows, so that no snapshot has it as the current
    session. *)
Theorem zero_window_session_is_never_active :
  forall (P : Platform) (date : Date P)
         (definition : TradingSessionDefinition),
    windows definition = [] ->
    isWithinWindow P date definition = false
    /\ (forall order catalog zone,
           current (snapshotOf P order catalog zone date) <> Some definition)
    /\ (forall catalog,
           In definition catalog ->
           In definition (listSessionsIn catalog (market definition)))
    /\ (forall order catalog,
           In (name definition) order ->
           find (fun def => String.eqb (name def) (name definition)) catalog
           = Some definition ->
           In definition (definitionsInOrder order catalog)).
Proof.
  intros P date definition Hempty.
  assert (Hnever : isWithinWindow P date definition = false).
  { unfold isWithinWindow. rewrite Hempty. reflexivity. }
  split; [exact Hnever | split; [| split]].
  - intros order catalog zone Hcur.
    apply find_some in Hcur. destruct Hcur as [_ Hactive].
    rewrite Hnever in Hactive. discriminate.
  - intros catalog Hin. apply filter_In. split; [exact Hin |].
    destruct (market definition); reflexivity.
  - intros order catalog. apply definitionsInOrder_keeps.
Qed.

Lemma zero_window_session_is_never_active_witness :
  isWithinWindow (Ref.runtime true) NY_EVENING EMPTY_SESSION = false
  /\ current (snapshotOf (Ref.runtime true) ORDER_WITH_EMPTY
                CATALOG_WITH_EMPTY "America/New_York" NY_EVENING)
     <> Some EMPTY_SESSION
  /\ In EMPTY_SESSION (listSessionsIn CATALOG_WITH_EMPTY us)
  /\ In EMPTY_SESSION (definitionsInOrder ORDER_WITH_EMPTY CATALOG_WITH_EMPTY).
Proof.
  destruct (zero_window_session_is_never_active (Ref.runtime true) NY_EVENING
              EMPTY_SESSION eq_refl) as (Hnever & Hcur & Hlist & Hkeep).
  split; [exact Hnever | split; [apply Hcur | split]].
  - apply Hlist. left. reflexivity.
  - apply Hkeep; [left |]; reflexivity.
Defined.

(** ** The daylight label from offsets *)

Lemma ratio_lt_iff (x y : Q) : ratio_lt (RNum x) (RNum y) = true <-> (x < y)%Q.
Proof.
  unfold ratio_lt. rewrite negb_true_iff. split.
  - intros Hb. apply Qnot_le_lt. intros Hle.
    apply Qle_bool_iff in Hle. congruence.
  - intros Hlt. apply not_true_is_false. intros Hb.
    apply Qle_bool_iff in Hb. exact (Qlt_not_le _ _ Hlt Hb).
Qed.

Lemma below_Math_max (c j u : Q) :
  ratio_lt (RNum c) (Math_max (RNum j) (RNum u)) = true
  <-> (c < Qmax j u)%Q.
Proof.
  unfold Math_max. rewrite Q.max_lt_iff.
  destruct (Qle_bool j u) eqn:Hju; rewrite ratio_lt_iff.
  - apply Qle_bool_iff in Hju. split; [intros H; right; exact H |].
    intros [H | H]; [exact (Qlt_le_trans _ _ _ H Hju) | exact H].
  - assert (Huj : (u < j)%Q).
    { apply Qnot_le_lt. intros Hle. apply Qle_bool_iff in Hle. congruence. }
    split; [intros H; left; exact H |].
    intros [H | H]; [exact H | exact (Qlt_trans _ _ _ H Huj)].
Qed.

Lemma labels_differ : LABEL_DAYLIGHT <> LABEL_STANDARD.
Proof. discriminate. Qed.

(** Past the flag and an inconclusive zone name, [computeDstLabel] is its
    offset-based tail. *)
Lemma computeDstLabel_fallback (P : Platform)
    (definition : TradingSessionDefinition) (date : Date P) :
  supportsDst definition <> Some false ->
  abbreviationInconclusive (tzNamePart P date (timeZone definition)) = true ->
  computeDstLabel P (Some definition) date
  = offsetBasedLabel P definition date.
Proof.
  intros Hflag Hname. unfold computeDstLabel.
  assert (Hbody :
    match tzNamePart P date (timeZone definition) with
    | Some name =>
        if truthy name then
          if includes (toUpperCase name) "DT" then LABEL_DAYLIGHT
          else if includes (toUpperCase name) "ST"
                  || includes (toUpperCase name) "STANDARD"
               then LABEL_STANDARD
               else offsetBasedLabel P definition date
        else offsetBasedLabel P definition date
    | None => offsetBasedLabel P definition date
    end = offsetBasedLabel P definition date).
  { unfold abbreviationInconclusive in Hname.
    destruct (tzNamePart P date (timeZone definition)) as [n |];
      [| reflexivity].
    destruct (truthy n); [| reflexivity].
    cbn [negb orb] in Hname.
    apply andb_true_iff in Hname. destruct Hname as [Hname Hstandard].
    apply andb_true_iff in Hname. destruct Hname as [Hdt Hst].
    apply negb_true_iff in Hdt, Hst, Hstandard.
    rewrite Hdt, Hst, Hstandard. reflexivity. }
  destruct (supportsDst definition) as [[|] |];
    [exact Hbody | congruence | exact Hbody].
Qed.

Lemma offsetBasedLabel_spec (P : Platform)
    (definition : TradingSessionDefinition) (date : Date P) (c j u : Q) :
  getTimeZoneOffsetMinutes P date (timeZone definition) = RNum c ->
  getTimeZoneOffsetMinutes P (Date_UTC P (getUTCFullYear P date) 0 1)
    (timeZone definition) = RNum j ->
  getTimeZoneOffsetMinutes P (Date_UTC P (getUTCFullYear P date) 6 1)
    (timeZone definition) = RNum u ->
  (offsetBasedLabel P definition date = LABEL_DAYLIGHT <-> (c < Qmax j u)%Q)
  /\ (offsetBasedLabel P definition date = LABEL_STANDARD
      <-> (Qmax j u <= c)%Q).
Proof.
  intros Hc Hj Hu. unfold offsetBasedLabel. rewrite Hc, Hj, Hu.
  pose proof (below_Math_max c j u) as Hlt.
  destruct (ratio_lt (RNum c) (Math_max (RNum j) (RNum u))).
  - assert (Hbelow : (c < Qmax j u)%Q) by (apply Hlt; reflexivity).
    split; split; intros H; try reflexivity; try exact Hbelow.
    + exfalso. exact (labels_differ H).
    + exfalso. exact (Qlt_not_le _ _ Hbelow H).
  - assert (Hnot : ~ (c < Qmax j u)%Q).
    { intros H. apply Hlt in H. discriminate. }
    split; split; intros H; try reflexivity.
    + exfalso. exact (labels_differ (eq_sym H)).
    + exfalso. exact (Hnot H).
    + apply Qnot_lt_le. exact Hnot.
Qed.

(** X30. When the definition does not carry [supportsDst = false] and the
    short zone name decides nothing, the label comes from the offsets that
    [getTimeZoneOffsetMinutes] computes: the baseline is [Math.max] of the
    offsets at January 1 and July 1 of the instant's UTC year, and the
    label is the daylight one iff the offset of the instant is strictly
    below the baseline, the standard one otherwise.  Hence of two instants
    of one UTC year, one with an offset at or above the baseline and one
    with an offset below it, the first is labelled standard and the second
    daylight. *)
Theorem offset_fallback_rule :
  (forall (P : Platform) (definition : TradingSessionDefinition)
          (date : Date P),
      supportsDst definition <> Some false ->
      abbreviationInconclusive (tzNamePart P date (timeZone definition))
      = true ->
      let zone := timeZone definition in
      let year := getUTCFullYear P date in
      let baseline :=
        Math_max (getTimeZoneOffsetMinutes P (Date_UTC P year 0 1) zone)
                 (getTimeZoneOffsetMinutes P (Date_UTC P year 6 1) zone) in
      computeDstLabel P (Some definition) date
      = (if ratio_lt (getTimeZoneOffsetMinutes P date zone) baseline
         then "夏令时 (DST)" else "冬令时 (标准时间)")
      /\ forall c j u : Q,
           getTimeZoneOffsetMinutes P date zone = RNum c ->
           getTimeZoneOffsetMinutes P (Date_UTC P year 0 1) zone = RNum j ->
           getTimeZoneOffsetMinutes P (Date_UTC P year 6 1) zone = RNum u ->
           (computeDstLabel P (Some definition) date = LABEL_DAYLIGHT
            <-> (c < Qmax j u)%Q)
           /\ (computeDstLabel P (Some definition) date = LABEL_STANDARD
               <-> (Qmax j u <= c)%Q))
  /\ (forall (P : Platform) (definition : TradingSessionDefinition)
             (one other : Date P) (a b j u : Q),
         supportsDst definition <> Some false ->
         abbreviationInconclusive (tzNamePart P one (timeZone definition))
         = true ->
         abbreviationInconclusive (tzNamePart P other (timeZone definition))
         = true ->
         getUTCFullYear P one = getUTCFullYear P other ->
         getTimeZoneOffsetMinutes P
           (Date_UTC P (getUTCFullYear P one) 0 1) (timeZone definition)
         = RNum j ->
         getTimeZoneOffsetMinutes P
           (Date_UTC P (getUTCFullYear P one) 6 1) (timeZone definition)
         = RNum u ->
         getTimeZoneOffsetMinutes P one (timeZone definition) = RNum a ->
         getTimeZoneOffsetMinutes P other (timeZone definition) = RNum b ->
         (Qmax j u <= a)%Q ->
         (b < Qmax j u)%Q ->
         computeDstLabel P (Some definition) one = "冬令时 (标准时间)"
         /\ computeDstLabel P (Some definition) other = "夏令时 (DST)").
Proof.
  split.
  - intros P definition date Hflag Hname zone year baseline.
    rewrite (computeDstLabel_fallback P definition date Hflag Hname).
    split; [reflexivity |].
    intros c j u Hc Hj Hu.
    exact (offsetBasedLabel_spec P definition date c j u Hc Hj Hu).
  - intros P definition one other a b j u Hflag Hone Hother Hyear Hj Hu
           Ha Hb Habove Hbelow.
    rewrite (computeDstLabel_fallback P definition one Hflag Hone).
    rewrite (computeDstLabel_fallback P definition other Hflag Hother).
    split.
    + apply (proj2 (offsetBasedLabel_spec P definition one a j u Ha Hj Hu)).
      exact Habove.
    + rewrite Hyear in Hj, Hu.
      apply (proj1 (offsetBasedLabel_spec P definition other b j u Hb Hj Hu)).
      exact Hbelow.
Qed.

Lemma offset_fallback_rule_witness :
  computeDstLabel (Ref.runtime false) (Some US_PREMARKET)
    JUST_BEFORE_SPRING_FORWARD
  = "冬令时 (标准时间)"
  /\ computeDstLabel (Ref.runtime false) (Some US_PREMARKET)
       JUST_AFTER_SPRING_FORWARD
     = "夏令时 (DST)".
Proof.
  refine (proj2 offset_fallback_rule (Ref.runtime false) US_PREMARKET
            JUST_BEFORE_SPRING_FORWARD JUST_AFTER_SPRING_FORWARD
            (18000500 # 60000) (14400500 # 60000)
            (18000000 # 60000) (14400000 # 60000)
            _ _ _ _ _ _ _ _ _ _).
  - discriminate.
  - reflexivity.
  - reflexivity.
  - reflexivity.
  - reflexivity.
  - reflexivity.
  - reflexivity.
  - reflexivity.
  - discriminate.
  - reflexivity.
Defined.

(** C4, on the code.  The offset [getTimeZoneOffsetMinutes] computes is
    not the zone's offset from UTC: the zone's wall clock is read back by
    [new Date(text)] as a local time of the host, so the result is the
    zone's offset from the host.  On a host that is itself in
    America/New_York the offset is 0 at every instant, the baseline is 0,
    and the offset rule labels the instants on both sides of the start of
    daylight time, and a summer evening, as standard time although the
    zone's clock moves from GMT-5 to GMT-4: the label does not flip.  On
    the same host the zone-name rule labels the same instants standard and
    daylight, and on a host in UTC the offset rule does too. *)
Theorem offset_fallback_on_new_york_host :
  (tzNamePart (HOSTED_RUNTIME "America/New_York" false)
     BEFORE_SPRING_FORWARD "America/New_York" = Some "GMT-5"
   /\ tzNamePart (HOSTED_RUNTIME "America/New_York" false)
        AFTER_SPRING_FORWARD "America/New_York" = Some "GMT-4"
   /\ abbreviationInconclusive (Some "GMT-5") = true
   /\ abbreviationInconclusive (Some "GMT-4") = true)
  /\ (let offset :=
        getTimeZoneOffsetMinutes (HOSTED_RUNTIME "America/New_York" false) in
      offset BEFORE_SPRING_FORWARD "America/New_York" = RNum (0 # 60000)
      /\ offset AFTER_SPRING_FORWARD "America/New_York" = RNum (0 # 60000)
      /\ offset (Ref.utc 2024 1 1 0 0) "America/New_York" = RNum (0 # 60000)
      /\ offset (Ref.utc 2024 7 1 0 0) "America/New_York" = RNum (0 # 60000))
  /\ (let label :=
        computeDstLabel (HOSTED_RUNTIME "America/New_York" false)
          (Some US_PREMARKET) in
      label BEFORE_SPRING_FORWARD = "冬令时 (标准时间)"
      /\ label AFTER_SPRING_FORWARD = "冬令时 (标准时间)"
      /\ label NY_EVENING = "冬令时 (标准时间)")
  /\ dstLabel (getUsSessionSnapshot (HOSTED_RUNTIME "America/New_York" false)
                 BEFORE_SPRING_FORWARD)
     = dstLabel (getUsSessionSnapshot (HOSTED_RUNTIME "America/New_York" false)
                   AFTER_SPRING_FORWARD)
  /\ (let label :=
        computeDstLabel (HOSTED_RUNTIME "America/New_York" true)
          (Some US_PREMARKET) in
      label BEFORE_SPRING_FORWARD = "冬令时 (标准时间)"
      /\ label AFTER_SPRING_FORWARD = "夏令时 (DST)")
  /\ (let label :=
        computeDstLabel (HOSTED_RUNTIME "UTC" false) (Some US_PREMARKET) in
      label BEFORE_SPRING_FORWARD = "冬令时 (标准时间)"
      /\ label AFTER_SPRING_FORWARD = "夏令时 (DST)").
Proof.
  repeat split.
Qed.

(** * Further properties of the session engine *)

(** ** Windows at their edges *)

(** X1. A bound that [timeStringToMinutes] cannot read is [NaN], and the
    window is then open on that side: without a readable start it contains
    the minutes before its end, without a readable end the minutes from its
    start on, and with neither it contains nothing. *)
Theorem unreadable_bound_is_open :
  forall (window : TradingWindow) (m : Z),
    (forall e,
        timeStringToMinutes (start window) = NaN ->
        timeStringToMinutes (end_ window) = Num e ->
        (windowContains (Num m) window = true <-> m < e))
    /\ (forall s,
           timeStringToMinutes (start window) = Num s ->
           timeStringToMinutes (end_ window) = NaN ->
           (windowContains (Num m) window = true <-> s <= m))
    /\ (timeStringToMinutes (start window) = NaN ->
        timeStringToMinutes (end_ window) = NaN ->
        windowContains (Num m) window = false).
Proof.
  intros window m. unfold windowContains. split; [| split].
  - intros e Hs He. rewrite Hs, He. cbn. apply Z.ltb_lt.
  - intros s Hs He. rewrite Hs, He. cbn. rewrite orb_false_r.
    apply Z.leb_le.
  - intros Hs He. rewrite Hs, He. reflexivity.
Qed.

Lemma unreadable_bound_is_open_witness :
  windowContains (Num 0) MALFORMED_WINDOW = true <-> 0 < 960.
Proof.
  refine (proj1 (unreadable_bound_is_open MALFORMED_WINDOW 0) 960 _ _);
    reflexivity.
Defined.

(** X2. A window whose start and end are the same minute contains no
    instant: it is the empty interval, not the whole day. *)
Theorem point_window_is_empty :
  forall (window : TradingWindow) (s : Z) (currentMinutes : num),
    timeStringToMinutes (start window) = Num s ->
    timeStringToMinutes (end_ window) = Num s ->
    windowContains currentMinutes window = false.
Proof.
  intros window s currentMinutes Hs He.
  destruct currentMinutes as [| m]; [apply windowContains_NaN |].
  apply not_true_is_false. intros Hc.
  apply (windowContains_iff window s s m Hs He) in Hc. lia.
Qed.

Lemma point_window_is_empty_witness :
  windowContains (Num 570) POINT_WINDOW = false.
Proof.
  refine (point_window_is_empty POINT_WINDOW 570 (Num 570) _ _); reflexivity.
Defined.

(** X3. A window that wraps midnight contains exactly the minutes that the
    window with the two bounds exchanged does not contain: together they
    split the day. *)
Theorem wrapping_window_is_complement :
  forall (window reversed : TradingWindow) (s e m : Z),
    timeStringToMinutes (start window) = Num s ->
    timeStringToMinutes (end_ window) = Num e ->
    timeStringToMinutes (start reversed) = Num e ->
    timeStringToMinutes (end_ reversed) = Num s ->
    s > e ->
    windowContains (Num m) window = negb (windowContains (Num m) reversed).
Proof.
  intros window reversed s e m Hs He Hrs Hre Hwrap.
  rewrite (windowContains_Num window s e m Hs He).
  rewrite (windowContains_Num reversed e s m Hrs Hre).
  destruct (Z.leb_spec s e); [lia |].
  destruct (Z.leb_spec e s); [| lia].
  destruct (Z.leb_spec s m), (Z.ltb_spec m e), (Z.leb_spec e m),
    (Z.ltb_spec m s); cbn; try reflexivity; lia.
Qed.

Lemma wrapping_window_is_complement_witness :
  windowContains (Num 1260) OVERNIGHT_WINDOW
  = negb (windowContains (Num 1260) DAY_WINDOW).
Proof.
  refine (wrapping_window_is_complement OVERNIGHT_WINDOW DAY_WINDOW
            1200 240 1260 _ _ _ _ _); reflexivity.
Defined.

(** ** Reading the clock *)

Lemma getMinutesInTimeZone_parts (P : Platform) (date : Date P)
    (timeZone : string) :
  getMinutesInTimeZone P date timeZone
  = num_add
      (num_mul
         (Number (orElse (partValue (hourMinuteParts P date timeZone) "hour")
                    "0"))
         (Num 60))
      (Number (orElse (partValue (hourMinuteParts P date timeZone) "minute")
                 "0")).
Proof. reflexivity. Qed.

Lemma Number_twoDigit (n : Z) :
  0 <= n < 100 -> Number (Ref.twoDigit n) = Num n.
Proof.
  intros Hn.
  assert (Hall : forallb
                   (fun k => match Number (Ref.twoDigit (Z.of_nat k)) with
                             | Num v => v =? Z.of_nat k
                             | NaN => false
                             end)
                   (seq 0 100) = true) by (vm_compute; reflexivity).
  rewrite forallb_forall in Hall.
  specialize (Hall (Z.to_nat n)).
  rewrite Z2Nat.id in Hall by lia.
  assert (Hin : In (Z.to_nat n) (seq 0 100)) by (apply in_seq; lia).
  specialize (Hall Hin).
  destruct (Number (Ref.twoDigit n)) as [| v]; [discriminate |].
  apply Z.eqb_eq in Hall. congruence.
Qed.

(** X4. When the formatter gives the hour and the minute as two-digit
    fields, [getMinutesInTimeZone] is sixty times the hour plus the minute;
    for an hour below 24 and a minute below 60 this is a minute of the day,
    between 0 and 1439. *)
Theorem minutes_from_two_digit_fields :
  forall (P : Platform) (date : Date P) (timeZone : string) (h mi : Z),
    0 <= h < 100 ->
    0 <= mi < 100 ->
    partValue (hourMinuteParts P date timeZone) "hour"
    = Some (Ref.twoDigit h) ->
    partValue (hourMinuteParts P date timeZone) "minute"
    = Some (Ref.twoDigit mi) ->
    getMinutesInTimeZone P date timeZone = Num (h * 60 + mi)
    /\ (h < 24 -> mi < 60 -> 0 <= h * 60 + mi <= 1439).
Proof.
  intros P date timeZone h mi Hh Hmi Hhour Hminute.
  rewrite getMinutesInTimeZone_parts, Hhour, Hminute. cbn [orElse].
  rewrite (Number_twoDigit h Hh), (Number_twoDigit mi Hmi).
  split; [reflexivity | lia].
Qed.

Lemma minutes_from_two_digit_fields_witness :
  getMinutesInTimeZone (Ref.runtime true) NY_EVENING "America/New_York"
  = Num (21 * 60 + 0)
  /\ (21 < 24 -> 0 < 60 -> 0 <= 21 * 60 + 0 <= 1439).
Proof.
  refine (minutes_from_two_digit_fields (Ref.runtime true) NY_EVENING
            "America/New_York" 21 0 _ _ _ _).
  - lia.
  - lia.
  - reflexivity.
  - reflexivity.
Defined.

(** X5. A field that the formatter does not give is read as 0.  With
    neither an hour nor a minute the instant is taken to be at midnight:
    the US market is then in its overnight session and the Hong Kong market
    in its evening session. *)
Theorem missing_fields_read_as_midnight :
  forall (P : Platform) (date : Date P),
    (forall timeZone,
        partValue (hourMinuteParts P date timeZone) "hour" = None ->
        partValue (hourMinuteParts P date timeZone) "minute" = None ->
        getMinutesInTimeZone P date timeZone = Num 0)
    /\ (partValue (hourMinuteParts P date "America/New_York") "hour" = None ->
        partValue (hourMinuteParts P date "America/New_York") "minute" = None ->
        current (getUsSessionSnapshot P date) = sessionNamed "美股夜盘")
    /\ (partValue (hourMinuteParts P date "Asia/Hong_Kong") "hour" = None ->
        partValue (hourMinuteParts P date "Asia/Hong_Kong") "minute" = None ->
        current (getHkSessionSnapshot P date) = sessionNamed "港股夜盘").
Proof.
  intros P date.
  assert (Hzero : forall timeZone,
             partValue (hourMinuteParts P date timeZone) "hour" = None ->
             partValue (hourMinuteParts P date timeZone) "minute" = None ->
             getMinutesInTimeZone P date timeZone = Num 0).
  { intros timeZone Hhour Hminute.
    rewrite getMinutesInTimeZone_parts, Hhour, Hminute. reflexivity. }
  split; [exact Hzero | split].
  - intros Hhour Hminute.
    apply (active_session_is_current P us date).
    + do 3 right. left. reflexivity.
    + unfold isWithinWindow. cbn [timeZone windows].
      rewrite (Hzero _ Hhour Hminute). reflexivity.
  - intros Hhour Hminute.
    apply (active_session_is_current P hk date).
    + right. left. reflexivity.
    + unfold isWithinWindow. cbn [timeZone windows].
      rewrite (Hzero _ Hhour Hminute). reflexivity.
Qed.

Lemma missing_fields_read_as_midnight_witness :
  getMinutesInTimeZone NO_PARTS_RUNTIME NY_EVENING "America/New_York" = Num 0
  /\ current (getUsSessionSnapshot NO_PARTS_RUNTIME NY_EVENING)
     = sessionNamed "美股夜盘"
  /\ current (getHkSessionSnapshot NO_PARTS_RUNTIME NY_EVENING)
     = sessionNamed "港股夜盘".
Proof.
  destruct (missing_fields_read_as_midnight NO_PARTS_RUNTIME NY_EVENING)
    as (Hzero & Hus & Hhk).
  split; [| split].
  - apply Hzero; reflexivity.
  - apply Hus; reflexivity.
  - apply Hhk; reflexivity.
Defined.

(** X6. When the minute of the day read in the market's zone is not a
    number, no session of the market is current: the market is shown as
    closed, whatever the instant. *)
Theorem unreadable_clock_closes_market :
  forall (P : Platform) (market' : Market) (date : Date P),
    getMinutesInTimeZone P date (marketZone market') = NaN ->
    current (classify P market' date) = None
    /\ cardStatus (classify P market' date) = "休市".
Proof.
  intros P market' date Hm.
  assert (Hcur : current (classify P market' date) = None).
  { destruct market'; apply find_none_iff; intros d Hd.
    - change (definitionsInOrder US_SESSION_ORDER SESSION_DEFINITIONS)
        with (firstn 4 SESSION_DEFINITIONS) in Hd.
      cbn [SESSION_DEFINITIONS firstn In] in Hd.
      destruct Hd as [<- | [<- | [<- | [<- | []]]]];
        apply isWithinWindow_NaN; exact Hm.
    - change (definitionsInOrder HK_SESSION_ORDER SESSION_DEFINITIONS)
        with (skipn 4 SESSION_DEFINITIONS) in Hd.
      cbn [SESSION_DEFINITIONS skipn In] in Hd.
      destruct Hd as [<- | [<- | []]];
        apply isWithinWindow_NaN; exact Hm. }
  split; [exact Hcur |].
  unfold cardStatus. rewrite Hcur. reflexivity.
Qed.

Lemma unreadable_clock_closes_market_witness :
  current (classify GARBLED_RUNTIME us NY_EVENING) = None
  /\ cardStatus (classify GARBLED_RUNTIME us NY_EVENING) = "休市".
Proof.
  refine (unreadable_clock_closes_market GARBLED_RUNTIME us NY_EVENING _).
  reflexivity.
Defined.

(** ** The schedule of each market *)

Lemma us_current_by_minute (P : Platform) (date : Date P) (m : Z) :
  getMinutesInTimeZone P date "America/New_York" = Num m ->
  option_map name (current (getUsSessionSnapshot P date))
  = Some (if (240 <=? m) && (m <? 570) then "美股盘前"
          else if (570 <=? m) && (m <? 960) then "美股盘中"
          else if (960 <=? m) && (m <? 1200) then "美股盘后"
          else "美股夜盘").
Proof.
  intros Hm.
  pose proof (us_activity P date m Hm) as Hact.
  unfold getUsSessionSnapshot, snapshotOf. cbn [current].
  change (definitionsInOrder US_SESSION_ORDER SESSION_DEFINITIONS)
    with (firstn 4 SESSION_DEFINITIONS).
  change (listSessionsByMarket us) with (firstn 4 SESSION_DEFINITIONS) in Hact.
  cbn [SESSION_DEFINITIONS firstn map find] in Hact |- *.
  injection Hact as H1 H2 H3 H4.
  rewrite H1, H2, H3, H4.
  assert (Hrange : 240 <= m < 570 \/ 570 <= m < 960 \/ 960 <= m < 1200
                   \/ (1200 <= m \/ m < 240)) by lia.
  destruct Hrange as [H | [H | [H | [H | H]]]];
    settle_comparisons; reflexivity.
Qed.

(** X7. The US session as a function of the minute of the day [m] read in
    America/New_York: pre-market for 240 <= m < 570, regular for
    570 <= m < 960, after-hours for 960 <= m < 1200, overnight for every
    other minute. *)
Theorem us_schedule :
  forall (P : Platform) (date : Date P) (m : Z),
    getMinutesInTimeZone P date "America/New_York" = Num m ->
    option_map name (current (getUsSessionSnapshot P date))
    = Some (if (240 <=? m) && (m <? 570) then "美股盘前"
            else if (570 <=? m) && (m <? 960) then "美股盘中"
            else if (960 <=? m) && (m <? 1200) then "美股盘后"
            else "美股夜盘").
Proof.
  intros P date m. apply us_current_by_minute.
Qed.

Lemma us_schedule_witness :
  option_map name (current (getUsSessionSnapshot (Ref.runtime true) NY_EVENING))
  = Some "美股夜盘".
Proof.
  refine (us_schedule (Ref.runtime true) NY_EVENING 1260 _). reflexivity.
Defined.

(** X8. The Hong Kong session as a function of the minute of the day [m]
    read in Asia/Hong_Kong: regular for 570 <= m < 720 and for
    780 <= m < 960, evening for m >= 1035 and for m < 180, and no session
    at any other minute: from 03:00 to 09:30, from 12:00 to 13:00 and from
    16:00 to 17:15. *)
Theorem hk_schedule :
  forall (P : Platform) (date : Date P) (m : Z),
    getMinutesInTimeZone P date "Asia/Hong_Kong" = Num m ->
    option_map name (current (getHkSessionSnapshot P date))
    = (if ((570 <=? m) && (m <? 720)) || ((780 <=? m) && (m <? 960))
       then Some "港股盘中"
       else if (1035 <=? m) || (m <? 180) then Some "港股夜盘"
       else None)
    /\ (current (getHkSessionSnapshot P date) = None
        <-> 180 <= m < 570 \/ 720 <= m < 780 \/ 960 <= m < 1035).
Proof.
  intros P date m Hm.
  pose proof (hk_activity P date m Hm) as Hact.
  unfold getHkSessionSnapshot, snapshotOf. cbn [current].
  change (definitionsInOrder HK_SESSION_ORDER SESSION_DEFINITIONS)
    with (skipn 4 SESSION_DEFINITIONS).
  change (listSessionsByMarket hk) with (skipn 4 SESSION_DEFINITIONS) in Hact.
  cbn [SESSION_DEFINITIONS skipn map find] in Hact |- *.
  injection Hact as H1 H2.
  rewrite H1, H2.
  assert (Hrange : 570 <= m < 720 \/ 780 <= m < 960
                   \/ (1035 <= m \/ m < 180)
                   \/ (180 <= m < 570 \/ 720 <= m < 780 \/ 960 <= m < 1035))
    by lia.
  destruct Hrange as [H | [H | [[H | H] | [H | [H | H]]]]];
    settle_comparisons; cbn [andb orb option_map name];
    (split; [reflexivity |]);
    (split; [intros Hnone; first [discriminate | lia] | intros Hgap; first [reflexivity | exfalso; lia]]).
Qed.

Lemma hk_schedule_witness :
  option_map name (current (getHkSessionSnapshot (Ref.runtime true) HK_LUNCH))
  = None
  /\ (current (getHkSessionSnapshot (Ref.runtime true) HK_LUNCH) = None
      <-> 180 <= 750 < 570 \/ 720 <= 750 < 780 \/ 960 <= 750 < 1035).
Proof.
  refine (hk_schedule (Ref.runtime true) HK_LUNCH 750 _). reflexivity.
Defined.

(** X9. The session a market's classifier returns is one of the sessions
    listed for that market: it carries the market's tag, is read in the
    market's zone, and is within its windows at the instant. *)
Theorem current_session_is_listed :
  forall (P : Platform) (market' : Market) (date : Date P) d,
    current (classify P market' date) = Some d ->
    In d (listSessionsByMarket market')
    /\ market d = market'
    /\ timeZone d = marketZone market'
    /\ isWithinWindow P date d = true.
Proof.
  intros P market' date d Hcur.
  assert (Hfind : find (isWithinWindow P date) (marketDefinitions market')
                  = Some d) by (destruct market'; exact Hcur).
  apply find_some in Hfind. destruct Hfind as [Hin Hactive].
  assert (Hlisted : In d (listSessionsByMarket market'))
    by (destruct market'; exact Hin).
  split; [exact Hlisted | split; [| split; [| exact Hactive]]].
  - destruct market'.
    + change (listSessionsByMarket us)
        with (firstn 4 SESSION_DEFINITIONS) in Hlisted.
      cbn [SESSION_DEFINITIONS firstn In] in Hlisted.
      destruct Hlisted as [<- | [<- | [<- | [<- | []]]]]; reflexivity.
    + change (listSessionsByMarket hk)
        with (skipn 4 SESSION_DEFINITIONS) in Hlisted.
      cbn [SESSION_DEFINITIONS skipn In] in Hlisted.
      destruct Hlisted as [<- | [<- | []]]; reflexivity.
  - destruct market'.
    + change (listSessionsByMarket us)
        with (firstn 4 SESSION_DEFINITIONS) in Hlisted.
      cbn [SESSION_DEFINITIONS firstn In] in Hlisted.
      destruct Hlisted as [<- | [<- | [<- | [<- | []]]]]; reflexivity.
    + change (listSessionsByMarket hk)
        with (skipn 4 SESSION_DEFINITIONS) in Hlisted.
      cbn [SESSION_DEFINITIONS skipn In] in Hlisted.
      destruct Hlisted as [<- | [<- | []]]; reflexivity.
Qed.

Lemma current_session_is_listed_witness :
  In US_OVERNIGHT (listSessionsByMarket us)
  /\ market US_OVERNIGHT = us
  /\ timeZone US_OVERNIGHT = marketZone us
  /\ isWithinWindow (Ref.runtime true) NY_EVENING US_OVERNIGHT = true.
Proof.
  refine (current_session_is_listed (Ref.runtime true) us NY_EVENING
            US_OVERNIGHT _).
  reflexivity.
Defined.

(** ** The label, branch by branch *)

Lemma offsetBasedLabel_cases (P : Platform)
    (definition : TradingSessionDefinition) (date : Date P) :
  offsetBasedLabel P definition date = LABEL_DAYLIGHT
  \/ offsetBasedLabel P definition date = LABEL_STANDARD.
Proof.
  unfold offsetBasedLabel. destruct (ratio_lt _ _); [left | right]; reflexivity.
Qed.

Lemma computeDstLabel_seasonal (P : Platform)
    (definition : TradingSessionDefinition) (date : Date P) :
  supportsDst definition <> Some false ->
  computeDstLabel P (Some definition) date = LABEL_DAYLIGHT
  \/ computeDstLabel P (Some definition) date = LABEL_STANDARD.
Proof.
  intros Hflag. unfold computeDstLabel.
  pose proof (offsetBasedLabel_cases P definition date) as Hfallback.
  assert (Hbody :
    forall body,
      body = match tzNamePart P date (timeZone definition) with
             | Some name =>
                 if truthy name then
                   if includes (toUpperCase name) "DT" then LABEL_DAYLIGHT
                   else if includes (toUpperCase name) "ST"
                           || includes (toUpperCase name) "STANDARD"
                        then LABEL_STANDARD
                        else offsetBasedLabel P definition date
                 else offsetBasedLabel P definition date
             | None => offsetBasedLabel P definition date
             end ->
      body = LABEL_DAYLIGHT \/ body = LABEL_STANDARD).
  { intros body ->.
    destruct (tzNamePart P date (timeZone definition)) as [n |];
      [| exact Hfallback].
    destruct (truthy n); [| exact Hfallback].
    destruct (includes (toUpperCase n) "DT"); [left; reflexivity |].
    destruct (includes (toUpperCase n) "ST" || includes (toUpperCase n) "STANDARD");
      [right; reflexivity | exact Hfallback]. }
  destruct (supportsDst definition) as [[|] |];
    [apply Hbody; reflexivity | congruence | apply Hbody; reflexivity].
Qed.

(** X10. [computeDstLabel] answers one of four fixed labels, and for the US
    market only two of them occur: the snapshot of the US market is
    labelled either daylight or standard time, never unknown and never
    without daylight saving, whatever the runtime and the instant. *)
Theorem label_is_one_of_four :
  forall (P : Platform) (date : Date P),
    (forall definition,
        In (computeDstLabel P definition date)
          ["未知时制"; "标准时间（无夏令时）"; "夏令时 (DST)";
           "冬令时 (标准时间)"])
    /\ (dstLabel (getUsSessionSnapshot P date) = "夏令时 (DST)"
        \/ dstLabel (getUsSessionSnapshot P date) = "冬令时 (标准时间)").
Proof.
  intros P date. split.
  - intros [definition |]; [| left; reflexivity].
    destruct (supportsDst definition) as [[|] |] eqn:Hflag.
    + destruct (computeDstLabel_seasonal P definition date) as [-> | ->];
        [congruence | do 2 right; left; reflexivity
         | do 3 right; left; reflexivity].
    + right. left. unfold computeDstLabel. rewrite Hflag. reflexivity.
    + destruct (computeDstLabel_seasonal P definition date) as [-> | ->];
        [congruence | do 2 right; left; reflexivity
         | do 3 right; left; reflexivity].
  - apply (computeDstLabel_seasonal P US_PREMARKET date). discriminate.
Qed.

(** X11. A short zone name that carries a designator decides the label
    before any offset is looked at: a name with DT gives the daylight
    label, and a name with ST and without DT gives the standard label.
    Letter case does not matter. *)
Theorem abbreviation_decides :
  forall (P : Platform) (definition : TradingSessionDefinition)
         (date : Date P) (zoneName : string),
    supportsDst definition <> Some false ->
    tzNamePart P date (timeZone definition) = Some zoneName ->
    (includes (toUpperCase zoneName) "DT" = true ->
     computeDstLabel P (Some definition) date = "夏令时 (DST)")
    /\ (includes (toUpperCase zoneName) "DT" = false ->
        includes (toUpperCase zoneName) "ST" = true ->
        computeDstLabel P (Some definition) date = "冬令时 (标准时间)").
Proof.
  intros P definition date zoneName Hflag Hname.
  assert (Htruthy : forall needle,
             includes (toUpperCase zoneName) (String "S" needle) = true
             \/ includes (toUpperCase zoneName) (String "D" needle) = true ->
             truthy zoneName = true).
  { intros needle Hinc. destruct zoneName; [| reflexivity].
    cbn in Hinc. destruct Hinc; discriminate. }
  split.
  - intros Hdt. unfold computeDstLabel. rewrite Hname.
    rewrite (Htruthy "T" (or_intror Hdt)), Hdt.
    destruct (supportsDst definition) as [[|] |]; [| congruence |];
      reflexivity.
  - intros Hdt Hst. unfold computeDstLabel. rewrite Hname.
    rewrite (Htruthy "T" (or_introl Hst)), Hdt, Hst.
    destruct (supportsDst definition) as [[|] |]; [| congruence |];
      reflexivity.
Qed.

Lemma abbreviation_decides_witness :
  computeDstLabel (Ref.runtime true) (Some US_PREMARKET) NY_EVENING
  = "夏令时 (DST)"
  /\ computeDstLabel (Ref.runtime true) (Some US_PREMARKET)
       BEFORE_SPRING_FORWARD
     = "冬令时 (标准时间)".
Proof.
  split.
  - refine (proj1 (abbreviation_decides (Ref.runtime true) US_PREMARKET
                     NY_EVENING "EDT" _ _) _).
    + discriminate.
    + reflexivity.
    + reflexivity.
  - refine (proj2 (abbreviation_decides (Ref.runtime true) US_PREMARKET
                     BEFORE_SPRING_FORWARD "EST" _ _) _ _).
    + discriminate.
    + reflexivity.
    + reflexivity.
    + reflexivity.
Defined.

(** X12. When the zone name decides nothing and one of the three offsets
    is not a number (the runtime could not read back a localized date),
    the label is the standard one: the offset rule never answers daylight
    from an unreadable offset. *)
Theorem unreadable_offset_is_standard :
  forall (P : Platform) (definition : TradingSessionDefinition)
         (date : Date P),
    supportsDst definition <> Some false ->
    abbreviationInconclusive (tzNamePart P date (timeZone definition))
    = true ->
    getTimeZoneOffsetMinutes P date (timeZone definition) = RNaN
    \/ getTimeZoneOffsetMinutes P
         (Date_UTC P (getUTCFullYear P date) 0 1) (timeZone definition)
       = RNaN
    \/ getTimeZoneOffsetMinutes P
         (Date_UTC P (getUTCFullYear P date) 6 1) (timeZone definition)
       = RNaN ->
    computeDstLabel P (Some definition) date = "冬令时 (标准时间)".
Proof.
  intros P definition date Hflag Hname Hnan.
  rewrite (computeDstLabel_fallback P definition date Hflag Hname).
  unfold offsetBasedLabel.
  destruct Hnan as [-> | [-> | ->]].
  - reflexivity.
  - destruct (getTimeZoneOffsetMinutes P date (timeZone definition));
      reflexivity.
  - destruct (getTimeZoneOffsetMinutes P date (timeZone definition));
      destruct (getTimeZoneOffsetMinutes P
                  (Date_UTC P (getUTCFullYear P date) 0 1)
                  (timeZone definition)); reflexivity.
Qed.

Lemma unreadable_offset_is_standard_witness :
  dstLabel (getUsSessionSnapshot UNPARSED_RUNTIME NY_EVENING)
  = "冬令时 (标准时间)".
Proof.
  refine (unreadable_offset_is_standard UNPARSED_RUNTIME US_PREMARKET
            NY_EVENING _ _ _).
  - discriminate.
  - reflexivity.
  - left. reflexivity.
Defined.

(** X13. When the zone name decides nothing and the offset of the instant
    equals the offsets at January 1 and at July 1, as in a zone that never
    changes its clock, the label is the standard one. *)
Theorem level_offsets_are_standard :
  forall (P : Platform) (definition : TradingSessionDefinition)
         (date : Date P) (c j u : Q),
    supportsDst definition <> Some false ->
    abbreviationInconclusive (tzNamePart P date (timeZone definition))
    = true ->
    getTimeZoneOffsetMinutes P date (timeZone definition) = RNum c ->
    getTimeZoneOffsetMinutes P
      (Date_UTC P (getUTCFullYear P date) 0 1) (timeZone definition)
    = RNum j ->
    getTimeZoneOffsetMinutes P
      (Date_UTC P (getUTCFullYear P date) 6 1) (timeZone definition)
    = RNum u ->
    (c == j)%Q ->
    (c == u)%Q ->
    computeDstLabel P (Some definition) date = "冬令时 (标准时间)".
Proof.
  intros P definition date c j u Hflag Hname Hc Hj Hu Hcj Hcu.
  rewrite (computeDstLabel_fallback P definition date Hflag Hname).
  apply (proj2 (offsetBasedLabel_spec P definition date c j u Hc Hj Hu)).
  rewrite <- Hcj, <- Hcu.
  rewrite Q.max_l by apply Qle_refl. apply Qle_refl.
Qed.

Lemma level_offsets_are_standard_witness :
  computeDstLabel (Ref.runtime true) (Some LONG_SESSION) NY_EVENING
  = "冬令时 (标准时间)".
Proof.
  refine (level_offsets_are_standard (Ref.runtime true) LONG_SESSION
            NY_EVENING (0 # 60000) (0 # 60000) (0 # 60000) _ _ _ _ _ _ _).
  - discriminate.
  - reflexivity.
  - reflexivity.
  - reflexivity.
  - reflexivity.
  - reflexivity.
  - reflexivity.
Defined.

(** ** The order table and the catalog *)

Lemma find_by_name_some (catalog : list TradingSessionDefinition)
    (n : string) (d : TradingSessionDefinition) :
  find (fun def => String.eqb (name def) n) catalog = Some d ->
  name d = n /\ In d catalog.
Proof.
  intros Hfind. apply find_some in Hfind. destruct Hfind as [Hin Heq].
  apply String.eqb_eq in Heq. split; assumption.
Qed.

Lemma find_by_name_existsb (catalog : list TradingSessionDefinition)
    (n : string) :
  existsb (fun def => String.eqb (name def) n) catalog
  = match find (fun def => String.eqb (name def) n) catalog with
    | Some _ => true
    | None => false
    end.
Proof.
  induction catalog as [| d catalog IH]; [reflexivity |].
  cbn [existsb find]. destruct (String.eqb (name d) n); [reflexivity |].
  exact IH.
Qed.

Lemma definitionsInOrder_cons (n : string) (order : list string)
    (catalog : list TradingSessionDefinition) :
  definitionsInOrder (n :: order) catalog
  = match find (fun def => String.eqb (name def) n) catalog with
    | Some d => d :: definitionsInOrder order catalog
    | None => definitionsInOrder order catalog
    end.
Proof.
  unfold definitionsInOrder. cbn [map filterDefined].
  destruct (find (fun def => String.eqb (name def) n) catalog); reflexivity.
Qed.

Lemma definitionsInOrder_elements (order : list string)
    (catalog : list TradingSessionDefinition) :
  Forall (fun d =>
            In (name d) order
            /\ find (fun def => String.eqb (name def) (name d)) catalog
               = Some d)
    (definitionsInOrder order catalog).
Proof.
  induction order as [| n order IH]; [constructor |].
  rewrite definitionsInOrder_cons.
  assert (Htail : Forall (fun d =>
                     In (name d) (n :: order)
                     /\ find (fun def => String.eqb (name def) (name d)) catalog
                        = Some d)
                    (definitionsInOrder order catalog)).
  { eapply Forall_impl; [| exact IH].
    intros d [Hin Hfind]. split; [right; exact Hin | exact Hfind]. }
  destruct (find (fun def => String.eqb (name def) n) catalog) as [d |] eqn:Hd;
    [| exact Htail].
  constructor; [| exact Htail].
  destruct (find_by_name_some catalog n d Hd) as [Hname _].
  split; [left; symmetry; exact Hname | rewrite Hname; exact Hd].
Qed.

(** X14. The definitions a classifier goes through are read off the order
    table: their names are the names of the table that the catalog has, in
    the order of the table (a name the catalog lacks is skipped, a name
    listed twice is taken twice), and each is the first definition of the
    catalog under its name. *)
Theorem definitionsInOrder_follows_order :
  forall (order : list string) (catalog : list TradingSessionDefinition),
    map name (definitionsInOrder order catalog)
    = filter (fun n => existsb (fun def => String.eqb (name def) n) catalog)
        order
    /\ Forall (fun d =>
                 In d catalog
                 /\ find (fun def => String.eqb (name def) (name d)) catalog
                    = Some d)
         (definitionsInOrder order catalog).
Proof.
  intros order catalog. split.
  - induction order as [| n order IH]; [reflexivity |].
    rewrite definitionsInOrder_cons. cbn [filter].
    rewrite find_by_name_existsb.
    destruct (find (fun def => String.eqb (name def) n) catalog) as [d |] eqn:Hd;
      [| exact IH].
    cbn [map]. rewrite IH.
    destruct (find_by_name_some catalog n d Hd) as [-> _]. reflexivity.
  - eapply Forall_impl; [| apply definitionsInOrder_elements].
    intros d [_ Hfind]. split; [| exact Hfind].
    exact (proj2 (find_by_name_some catalog (name d) d Hfind)).
Qed.

(** X15. A definition is never the current session when the order table
    does not have its name, or when an earlier definition of the catalog
    has the same name, even at an instant inside its windows; the listing
    of its market returns it all the same. *)
Theorem unnamed_session_is_never_current :
  forall (P : Platform) order catalog zone (date : Date P) d,
    ~ In (name d) order
    \/ find (fun def => String.eqb (name def) (name d)) catalog <> Some d ->
    current (snapshotOf P order catalog zone date) <> Some d
    /\ (In d catalog -> In d (listSessionsIn catalog (market d))).
Proof.
  intros P order catalog zone date d Hout. split.
  - intros Hcur. apply find_some in Hcur. destruct Hcur as [Hin _].
    pose proof (definitionsInOrder_elements order catalog) as Hall.
    rewrite Forall_forall in Hall.
    destruct (Hall d Hin) as [Hname Hfind].
    destruct Hout as [Hout | Hout]; [exact (Hout Hname) | exact (Hout Hfind)].
  - intros Hin. apply filter_In. split; [exact Hin |].
    destruct (market d); reflexivity.
Qed.

Lemma unnamed_session_is_never_current_witness :
  isWithinWindow (Ref.runtime true) NY_EVENING UNLISTED_SESSION = true
  /\ current (snapshotOf (Ref.runtime true) US_SESSION_ORDER
                CATALOG_WITH_UNLISTED "America/New_York" NY_EVENING)
     <> Some UNLISTED_SESSION
  /\ In UNLISTED_SESSION (listSessionsIn CATALOG_WITH_UNLISTED us).
Proof.
  destruct (unnamed_session_is_never_current (Ref.runtime true)
              US_SESSION_ORDER CATALOG_WITH_UNLISTED "America/New_York"
              NY_EVENING UNLISTED_SESSION) as [Hnever Hlisted].
  - left. intros [H | [H | [H | [H | []]]]]; discriminate H.
  - split; [reflexivity | split; [exact Hnever |]].
    apply Hlisted. left. reflexivity.
Defined.

(** X16. The listings of the two markets split a catalog: a definition is
    listed for a market exactly when the catalog has it with that market's
    tag, and the two listings together have as many definitions as the
    catalog. *)
Theorem listings_split_catalog :
  forall (catalog : list TradingSessionDefinition),
    (forall d market',
        In d (listSessionsIn catalog market')
        <-> In d catalog /\ market d = market')
    /\ (List.length (listSessionsIn catalog us)
        + List.length (listSessionsIn catalog hk)
        = List.length catalog)%nat.
Proof.
  intros catalog. split.
  - intros d market'. unfold listSessionsIn. rewrite filter_In.
    split; intros [Hin Hm]; (split; [exact Hin |]).
    + destruct (market d), market'; try reflexivity; discriminate.
    + rewrite Hm. destruct market'; reflexivity.
  - induction catalog as [| d catalog IH]; [reflexivity |].
    unfold listSessionsIn in *. cbn [filter].
    destruct (market d); cbn [Market_eqb List.length]; lia.
Qed.

(** ** The cards and the dialog *)

Lemma current_is_listed (P : Platform) (market' : Market) (date : Date P)
    (d : TradingSessionDefinition) :
  current (classify P market' date) = Some d ->
  In d (listSessionsByMarket market').
Proof.
  intros Hcur.
  assert (Hfind : find (isWithinWindow P date) (marketDefinitions market')
                  = Some d) by (destruct market'; exact Hcur).
  apply find_some in Hfind. destruct Hfind as [Hin _].
  destruct market'; exact Hin.
Qed.

(** X17. The status line of a market's card is the name of one of the
    market's sessions or the closed mark, and it is the closed mark exactly
    when the snapshot has no current session.  On the US card the closed
    mark never appears as long as the clock can be read. *)
Theorem card_status_is_session_or_closed :
  (forall (P : Platform) (market' : Market) (date : Date P),
      In (cardStatus (classify P market' date))
        ("休市" :: map name (listSessionsByMarket market'))
      /\ (cardStatus (classify P market' date) = "休市"
          <-> current (classify P market' date) = None))
  /\ (forall (P : Platform) (date : Date P) (m : Z),
         getMinutesInTimeZone P date "America/New_York" = Num m ->
         In (cardStatus (getUsSessionSnapshot P date)) US_SESSION_ORDER).
Proof.
  split.
  - intros P market' date. unfold cardStatus.
    destruct (current (classify P market' date)) as [d |] eqn:Hcur.
    + pose proof (current_is_listed P market' date d Hcur) as Hin.
      cbn [option_map orElse]. split.
      * right. apply in_map. exact Hin.
      * split; [| discriminate].
        intros Hname. exfalso. destruct market'.
        -- change (listSessionsByMarket us)
             with (firstn 4 SESSION_DEFINITIONS) in Hin.
           cbn [SESSION_DEFINITIONS firstn In] in Hin.
           destruct Hin as [<- | [<- | [<- | [<- | []]]]]; discriminate Hname.
        -- change (listSessionsByMarket hk)
             with (skipn 4 SESSION_DEFINITIONS) in Hin.
           cbn [SESSION_DEFINITIONS skipn In] in Hin.
           destruct Hin as [<- | [<- | []]]; discriminate Hname.
    + cbn [option_map orElse]. split; [left; reflexivity |].
      split; reflexivity.
  - intros P date m Hm. unfold cardStatus.
    rewrite (us_current_by_minute P date m Hm). cbn [orElse].
    destruct ((240 <=? m) && (m <? 570)); [left; reflexivity |].
    destruct ((570 <=? m) && (m <? 960)); [right; left; reflexivity |].
    destruct ((960 <=? m) && (m <? 1200)); [do 2 right; left; reflexivity |].
    do 3 right. left. reflexivity.
Qed.

Lemma card_status_is_session_or_closed_witness :
  In (cardStatus (getUsSessionSnapshot (Ref.runtime true) NY_EVENING))
    US_SESSION_ORDER.
Proof.
  refine (proj2 card_status_is_session_or_closed (Ref.runtime true)
            NY_EVENING 1260 _).
  reflexivity.
Defined.

(** X18. The US card, which shows the time regime, shows one of the two
    season words and nothing of the rest of the label: the daylight word
    exactly when the label is the daylight label.  The Hong Kong card does
    not show the regime; the same replacement on its fixed label would
    stop after the season word inside it and lose the closing bracket. *)
Theorem us_card_shows_season :
  forall (P : Platform) (date : Date P),
    (cardSuffix true (getUsSessionSnapshot P date) = "（夏令时）"
     \/ cardSuffix true (getUsSessionSnapshot P date) = "（冬令时）")
    /\ (cardSuffix true (getUsSessionSnapshot P date) = "（夏令时）"
        <-> dstLabel (getUsSessionSnapshot P date) = "夏令时 (DST)")
    /\ cardSuffix false (getHkSessionSnapshot P date) = ""
    /\ dstDisplay (getHkSessionSnapshot P date) = "标准时间（无夏令时".
Proof.
  intros P date.
  assert (Hlabel : dstLabel (getUsSessionSnapshot P date) = LABEL_DAYLIGHT
                   \/ dstLabel (getUsSessionSnapshot P date) = LABEL_STANDARD).
  { apply (computeDstLabel_seasonal P US_PREMARKET date). discriminate. }
  unfold cardSuffix, dstDisplay.
  destruct Hlabel as [Hl | Hl]; rewrite Hl.
  - split; [left; reflexivity | split; [split; reflexivity |]].
    split; reflexivity.
  - split; [right; reflexivity | split; [split; discriminate |]].
    split; reflexivity.
Qed.

(** ** The replacement of the season word *)

Lemma replaceSeason_unfold (label : string) :
  replaceSeason label
  = if prefix "夏令时" label
    then "夏令时" ++ fromLineEnd (drop 9 label)
    else if prefix "冬令时" label
    then "冬令时" ++ fromLineEnd (drop 9 label)
    else match label with
         | String c rest => String c (replaceSeason rest)
         | EmptyString => EmptyString
         end.
Proof. destruct label; reflexivity. Qed.

Lemma includes_unfold (s needle : string) :
  includes s needle
  = if prefix needle s then true
    else match s with
         | String _ rest => includes rest needle
         | EmptyString => false
         end.
Proof. destruct s; reflexivity. Qed.

(** X19. A label in which neither season word occurs is shown as it is. *)
Theorem replaceSeason_without_season :
  forall label : string,
    includes label "夏令时" = false ->
    includes label "冬令时" = false ->
    replaceSeason label = label.
Proof.
  induction label as [| c rest IH]; intros Hsummer Hwinter; [reflexivity |].
  rewrite includes_unfold in Hsummer, Hwinter.
  rewrite replaceSeason_unfold.
  destruct (prefix "夏令时" (String c rest)); [discriminate |].
  destruct (prefix "冬令时" (String c rest)); [discriminate |].
  rewrite (IH Hsummer Hwinter). reflexivity.
Qed.

Lemma replaceSeason_without_season_witness :
  replaceSeason "未知时制" = "未知时制".
Proof.
  refine (replaceSeason_without_season "未知时制" _ _); reflexivity.
Defined.

Lemma firstBytes_S (n : nat) (c : ascii) (s : string) :
  firstBytes (S n) (String c s) = String c (firstBytes n s).
Proof. reflexivity. Qed.

Lemma prefix_firstBytes (w s : string) :
  prefix w s = prefix w (firstBytes (String.length w) s).
Proof.
  revert s. induction w as [| a w IH]; intros s; [destruct s; reflexivity |].
  destruct s as [| c rest]; [reflexivity |].
  cbn [String.length firstBytes prefix].
  destruct (ascii_dec a c); [apply IH | reflexivity].
Qed.

Lemma prefix_split (w s : string) :
  prefix w s = true -> s = w ++ drop (String.length w) s.
Proof.
  revert s. induction w as [| a w IH]; intros s Hp; [reflexivity |].
  destruct s as [| c rest]; [discriminate |].
  cbn [prefix] in Hp. destruct (ascii_dec a c) as [-> |]; [| discriminate].
  cbn [String.length drop append]. f_equal. apply IH. exact Hp.
Qed.

Lemma firstBytes_append (w t : string) (n : nat) :
  (n <= String.length w)%nat ->
  firstBytes n (w ++ t) = firstBytes n w.
Proof.
  revert n. induction w as [| a w IH]; intros n Hn.
  - cbn in Hn. assert (n = 0%nat) as -> by lia. destruct t; reflexivity.
  - destruct n as [| n]; [reflexivity |].
    cbn [append firstBytes]. f_equal. apply IH. cbn in Hn. lia.
Qed.

Lemma firstBytes_replaceSeason (s : string) (n : nat) :
  (n <= 9)%nat -> firstBytes n (replaceSeason s) = firstBytes n s.
Proof.
  revert n. induction s as [| c rest IH]; intros n Hn; [reflexivity |].
  rewrite replaceSeason_unfold.
  destruct (prefix "夏令时" (String c rest)) eqn:Hsummer.
  - rewrite (prefix_split _ _ Hsummer) at 2.
    rewrite !firstBytes_append by exact Hn. reflexivity.
  - destruct (prefix "冬令时" (String c rest)) eqn:Hwinter.
    + rewrite (prefix_split _ _ Hwinter) at 2.
      rewrite !firstBytes_append by exact Hn. reflexivity.
    + destruct n as [| n]; [reflexivity |].
      cbn [firstBytes]. f_equal. apply IH. lia.
Qed.

Lemma prefix_append (w t : string) : prefix w (w ++ t) = true.
Proof.
  induction w as [| a w IH]; [destruct t; reflexivity |].
  cbn [append prefix]. destruct (ascii_dec a a); [exact IH | congruence].
Qed.

Lemma drop_append (w t : string) : drop (String.length w) (w ++ t) = t.
Proof.
  induction w as [| a w IH]; [destruct t; reflexivity | exact IH].
Qed.

Lemma fromLineEnd_fixed (s : string) :
  fromLineEnd (fromLineEnd s) = fromLineEnd s.
Proof.
  induction s as [| c rest IH]; [reflexivity |].
  cbn [fromLineEnd].
  destruct (atLineTerminator (String c rest)) eqn:Hat; [| exact IH].
  cbn [fromLineEnd]. rewrite Hat. reflexivity.
Qed.

(** X20. Replacing the season word twice gives what replacing it once
    gives: what a card shows is stable under the replacement. *)
Theorem replaceSeason_idempotent :
  forall label : string,
    replaceSeason (replaceSeason label) = replaceSeason label.
Proof.
  induction label as [| c rest IH]; [reflexivity |].
  rewrite (replaceSeason_unfold (String c rest)).
  destruct (prefix "夏令时" (String c rest)) eqn:Hsummer.
  - rewrite replaceSeason_unfold.
    rewrite prefix_append.
    rewrite (drop_append "夏令时").
    rewrite fromLineEnd_fixed. reflexivity.
  - destruct (prefix "冬令时" (String c rest)) eqn:Hwinter.
    + rewrite replaceSeason_unfold.
      change (prefix "夏令时"
                ("冬令时" ++ fromLineEnd (drop 9 (String c rest)))) with false.
      rewrite prefix_append.
      rewrite (drop_append "冬令时").
      rewrite fromLineEnd_fixed. reflexivity.
    + rewrite replaceSeason_unfold.
      assert (Hsame : forall w,
                 String.length w = 9%nat ->
                 prefix w (String c (replaceSeason rest))
                 = prefix w (String c rest)).
      { intros w Hw.
        rewrite (prefix_firstBytes w (String c (replaceSeason rest))).
        rewrite (prefix_firstBytes w (String c rest)).
        rewrite Hw, !firstBytes_S.
        rewrite (firstBytes_replaceSeason rest 8) by lia. reflexivity. }
      rewrite (Hsame "夏令时" eq_refl), Hsummer.
      rewrite (Hsame "冬令时" eq_refl), Hwinter.
      rewrite IH. reflexivity.
Qed.

(** X21. In the dialog, the rows of a market that are lit are exactly the
    current session of the market: one row while a session is current,
    none while the market is closed. *)
Theorem one_row_is_lit :
  forall (P : Platform) (market' : Market) (date : Date P),
    filter (rowIsActive (classify P market' date))
      (listSessionsByMarket market')
    = match current (classify P market' date) with
      | Some d => [d]
      | None => []
      end.
Proof.
  intros P market' date. unfold rowIsActive.
  destruct (current (classify P market' date)) as [d |] eqn:Hcur.
  - pose proof (current_is_listed P market' date d Hcur) as Hin.
    cbn [option_map]. destruct market'.
    + change (listSessionsByMarket us)
        with (firstn 4 SESSION_DEFINITIONS) in Hin |- *.
      cbn [SESSION_DEFINITIONS firstn In] in Hin.
      destruct Hin as [<- | [<- | [<- | [<- | []]]]]; reflexivity.
    + change (listSessionsByMarket hk)
        with (skipn 4 SESSION_DEFINITIONS) in Hin |- *.
      cbn [SESSION_DEFINITIONS skipn In] in Hin.
      destruct Hin as [<- | [<- | []]]; reflexivity.
  - cbn [option_map]. destruct market'; reflexivity.
Qed.

(** * The backtest page *)

(** ** Strategy parameters *)

(** X22. A coerced parameter always has the kind its type asks for: a
    number for the integer and floating types, a boolean for the boolean
    types, a text for any other type.  It is never undefined or null,
    whatever was entered and whatever the default is. *)
Theorem coerced_value_has_declared_kind :
  forall (N : Backtest.Numbers) (parameter : Backtest.StrategyParameter N)
         (rawValue : option string),
    Backtest.kindOf N
      (Backtest.coerceStrategyParameterValue N parameter rawValue)
    = Some (Backtest.declaredKind N parameter).
Proof.
  intros N parameter rawValue.
  unfold Backtest.coerceStrategyParameterValue, Backtest.declaredKind.
  cbn [existsb].
  set (type := Backtest.toLowerCase (Backtest.parameter_type N parameter)).
  destruct (String.eqb type "int"), (String.eqb type "integer"),
    (String.eqb type "float"), (String.eqb type "double"),
    (String.eqb type "number"), (String.eqb type "bool"),
    (String.eqb type "boolean"); cbn [orb];
    destruct rawValue as [text |];
    repeat match goal with
      | |- context [if ?b then _ else _] => destruct b
      | |- context [match Backtest.default N parameter with _ => _ end] =>
          destruct (Backtest.default N parameter)
      end; reflexivity.
Qed.

(** X23. An entry that cannot be used counts as no entry: for a numeric
    type a text that is not a finite number, and for a boolean type a text
    other than true and false, give the value that a missing entry gives
    (the default of the right kind, else 0 or false). *)
Theorem unusable_entry_is_missing :
  forall (N : Backtest.Numbers) (parameter : Backtest.StrategyParameter N)
         (text : string),
    Backtest.isFinite N (Backtest.nan N) = false ->
    (Backtest.declaredKind N parameter = Backtest.KNumber ->
     Backtest.isFinite N (Backtest.Number_ofString N text) = false ->
     Backtest.coerceStrategyParameterValue N parameter (Some text)
     = Backtest.coerceStrategyParameterValue N parameter None)
    /\ (Backtest.declaredKind N parameter = Backtest.KBoolean ->
        text <> "true" ->
        text <> "false" ->
        Backtest.coerceStrategyParameterValue N parameter (Some text)
        = Backtest.coerceStrategyParameterValue N parameter None).
Proof.
  intros N parameter text Hnan.
  unfold Backtest.coerceStrategyParameterValue, Backtest.declaredKind.
  cbn [existsb].
  set (type := Backtest.toLowerCase (Backtest.parameter_type N parameter)).
  split.
  - intros Hkind Hbad. rewrite Hbad, Hnan.
    destruct (String.eqb type "int"), (String.eqb type "integer"),
      (String.eqb type "float"), (String.eqb type "double"),
      (String.eqb type "number"); cbn [orb] in Hkind |- *;
      try reflexivity;
      destruct (String.eqb type "bool"), (String.eqb type "boolean");
      discriminate Hkind.
  - intros Hkind Htrue Hfalse.
    apply String.eqb_neq in Htrue, Hfalse. rewrite Htrue, Hfalse.
    destruct (String.eqb type "int"), (String.eqb type "integer"),
      (String.eqb type "float"), (String.eqb type "double"),
      (String.eqb type "number"); cbn [orb] in Hkind |- *;
      try discriminate Hkind.
    destruct (String.eqb type "bool"), (String.eqb type "boolean");
      first [reflexivity | discriminate Hkind].
Qed.

Lemma unusable_entry_is_missing_witness :
  Backtest.coerceStrategyParameterValue Backtest.INTEGERS
    Backtest.WINDOW_PARAMETER (Some "abc")
  = Backtest.coerceStrategyParameterValue Backtest.INTEGERS
      Backtest.WINDOW_PARAMETER None
  /\ Backtest.coerceStrategyParameterValue Backtest.INTEGERS
       Backtest.SHORTING_PARAMETER (Some "TRUE")
     = Backtest.coerceStrategyParameterValue Backtest.INTEGERS
         Backtest.SHORTING_PARAMETER None.
Proof.
  split.
  - refine (proj1 (unusable_entry_is_missing Backtest.INTEGERS
                     Backtest.WINDOW_PARAMETER "abc" _) _ _); reflexivity.
  - refine (proj2 (unusable_entry_is_missing Backtest.INTEGERS
                     Backtest.SHORTING_PARAMETER "TRUE" _) _ _ _);
      first [reflexivity | discriminate].
Defined.

(** X24. Sending a parameter with the text of its default is the same as
    sending it with no entry, so a form left untouched posts the defaults:
    always for a text type, for a boolean type when the default is a
    boolean (the value is then that boolean), and for a numeric type when
    the default is a number that [Number] reads back from its text. *)
Theorem default_text_round_trip :
  forall (N : Backtest.Numbers) (parameter : Backtest.StrategyParameter N),
    Backtest.isFinite N (Backtest.nan N) = false ->
    (Backtest.declaredKind N parameter = Backtest.KString ->
     Backtest.coerceStrategyParameterValue N parameter
       (Some (Backtest.defaultText N parameter))
     = Backtest.coerceStrategyParameterValue N parameter None)
    /\ (forall b,
           Backtest.declaredKind N parameter = Backtest.KBoolean ->
           Backtest.default N parameter = Backtest.VBoolean b ->
           Backtest.coerceStrategyParameterValue N parameter
             (Some (Backtest.defaultText N parameter))
           = Backtest.VBoolean b
           /\ Backtest.coerceStrategyParameterValue N parameter None
              = Backtest.VBoolean b)
    /\ (forall x,
           Backtest.declaredKind N parameter = Backtest.KNumber ->
           Backtest.default N parameter = Backtest.VNumber x ->
           Backtest.Number_ofString N (Backtest.String_ofNumber N x) = x ->
           Backtest.coerceStrategyParameterValue N parameter
             (Some (Backtest.defaultText N parameter))
           = Backtest.coerceStrategyParameterValue N parameter None).
Proof.
  intros N parameter Hnan.
  unfold Backtest.coerceStrategyParameterValue, Backtest.declaredKind,
    Backtest.defaultText.
  cbn [existsb].
  set (type := Backtest.toLowerCase (Backtest.parameter_type N parameter)).
  split; [| split].
  - intros Hkind.
    destruct (String.eqb type "int"), (String.eqb type "integer"),
      (String.eqb type "float"), (String.eqb type "double"),
      (String.eqb type "number"), (String.eqb type "bool"),
      (String.eqb type "boolean"); cbn [orb] in Hkind |- *;
      try discriminate Hkind.
    destruct (Backtest.default N parameter) as [| | [|] | x | s];
      reflexivity.
  - intros b Hkind Hdefault. rewrite Hdefault.
    destruct (String.eqb type "int"), (String.eqb type "integer"),
      (String.eqb type "float"), (String.eqb type "double"),
      (String.eqb type "number"); cbn [orb] in Hkind |- *;
      try discriminate Hkind.
    destruct (String.eqb type "bool"), (String.eqb type "boolean");
      cbn [orb] in Hkind |- *; try discriminate Hkind;
      destruct b; split; reflexivity.
  - intros x Hkind Hdefault Hback. rewrite Hdefault, Hback, Hnan.
    destruct (String.eqb type "int"), (String.eqb type "integer"),
      (String.eqb type "float"), (String.eqb type "double"),
      (String.eqb type "number"); cbn [orb] in Hkind |- *;
      try (destruct (Backtest.isFinite N x); reflexivity);
      destruct (String.eqb type "bool"), (String.eqb type "boolean");
      discriminate Hkind.
Qed.

Lemma default_text_round_trip_witness :
  Backtest.coerceStrategyParameterValue Backtest.INTEGERS
    Backtest.LABEL_PARAMETER (Some "base")
  = Backtest.coerceStrategyParameterValue Backtest.INTEGERS
      Backtest.LABEL_PARAMETER None
  /\ Backtest.coerceStrategyParameterValue Backtest.INTEGERS
       Backtest.SHORTING_PARAMETER (Some "true")
     = Backtest.VBoolean true
  /\ Backtest.coerceStrategyParameterValue Backtest.INTEGERS
       Backtest.WINDOW_PARAMETER (Some "20")
     = Backtest.coerceStrategyParameterValue Backtest.INTEGERS
         Backtest.WINDOW_PARAMETER None.
Proof.
  split; [| split].
  - refine (proj1 (default_text_round_trip Backtest.INTEGERS
                     Backtest.LABEL_PARAMETER _) _); reflexivity.
  - refine (proj1 (proj1 (proj2 (default_text_round_trip Backtest.INTEGERS
                                   Backtest.SHORTING_PARAMETER _))
                     true _ _)); reflexivity.
  - refine (proj2 (proj2 (default_text_round_trip Backtest.INTEGERS
                            Backtest.WINDOW_PARAMETER _))
              (Num 20) _ _ _); reflexivity.
Defined.

Lemma find_append {A : Type} (f : A -> bool) (l1 l2 : list A) :
  find f (l1 ++ l2)%list
  = match find f l1 with
    | Some x => Some x
    | None => find f l2
    end.
Proof.
  induction l1 as [| a l1 IH]; [reflexivity |].
  cbn [app find]. destruct (f a); [reflexivity | exact IH].
Qed.

Lemma getOwnProperty_fold (N : Backtest.Numbers)
    (ps : list (Backtest.StrategyParameter N)) (acc : Backtest.Table)
    (key : string) :
  Backtest.getOwnProperty
    (fold_left
       (fun acc parameter =>
          Backtest.setProperty acc (Backtest.name N parameter)
            (Backtest.defaultText N parameter))
       ps acc)
    key
  = if String.eqb key "__proto__"
    then Backtest.getOwnProperty acc key
    else match find (fun p => String.eqb (Backtest.name N p) key) (rev ps) with
         | Some p => Some (Backtest.defaultText N p)
         | None => Backtest.getOwnProperty acc key
         end.
Proof.
  revert acc. induction ps as [| p ps IH]; intros acc.
  - cbn. destruct (String.eqb key "__proto__"); reflexivity.
  - cbn [fold_left rev]. rewrite IH, find_append. cbn [find].
    unfold Backtest.setProperty.
    destruct (String.eqb key "__proto__") eqn:Hkey.
    + apply String.eqb_eq in Hkey. subst key.
      destruct (String.eqb (Backtest.name N p) "__proto__") eqn:Hp;
        [reflexivity |].
      cbn [Backtest.getOwnProperty]. rewrite Hp. reflexivity.
    + destruct (find (fun p0 => String.eqb (Backtest.name N p0) key) (rev ps));
        [reflexivity |].
      destruct (String.eqb (Backtest.name N p) "__proto__") eqn:Hp.
      * apply String.eqb_eq in Hp.
        assert (Hne : String.eqb (Backtest.name N p) key = false).
        { rewrite Hp. rewrite String.eqb_sym. exact Hkey. }
        rewrite Hne. reflexivity.
      * cbn [Backtest.getOwnProperty].
        destruct (String.eqb (Backtest.name N p) key); reflexivity.
Qed.

(** X25. The table of defaults of a strategy has, under each parameter
    name, the default text of the last parameter of that name, and nothing
    under any other name; a parameter called __proto__ gets no entry.
    Without a strategy the table is empty. *)
Theorem default_table_entries :
  forall (N : Backtest.Numbers) (strategy : Backtest.Strategy N)
         (key : string),
    Backtest.getOwnProperty
      (Backtest.buildDefaultStrategyParams N (Some strategy)) key
    = (if String.eqb key "__proto__" then None
       else option_map (Backtest.defaultText N)
              (find (fun p => String.eqb (Backtest.name N p) key)
                 (rev (Backtest.parameters N strategy))))
    /\ Backtest.getOwnProperty (Backtest.buildDefaultStrategyParams N None) key
       = None.
Proof.
  intros N strategy key. split; [| reflexivity].
  unfold Backtest.buildDefaultStrategyParams.
  rewrite getOwnProperty_fold.
  destruct (String.eqb key "__proto__"); [reflexivity |].
  destruct (find _ (rev (Backtest.parameters N strategy))); reflexivity.
Qed.

(** ** Sorting *)

(** X26. After a click on a column header the table is sorted by that
    column, and that header alone carries an arrow; a second click on the
    column that is sorted only turns the direction round, and a third
    brings the first state back. *)
Theorem toggleSort_turns_direction :
  forall (sortConfig : Backtest.SortConfig) (clicked : Backtest.SortField),
    Backtest.field (Backtest.toggleSort clicked sortConfig) = clicked
    /\ (forall other,
           Backtest.getSortIndicator
             (Backtest.toggleSort clicked sortConfig) other = ""
           <-> other <> clicked)
    /\ Backtest.direction
         (Backtest.toggleSort clicked (Backtest.toggleSort clicked sortConfig))
       <> Backtest.direction (Backtest.toggleSort clicked sortConfig)
    /\ Backtest.toggleSort clicked
         (Backtest.toggleSort clicked (Backtest.toggleSort clicked sortConfig))
       = Backtest.toggleSort clicked sortConfig.
Proof.
  intros [f d] clicked.
  split; [| split; [| split]].
  - destruct f, clicked; reflexivity.
  - intros other.
    destruct f, d, clicked, other; cbn; split; intros H;
      first [reflexivity | discriminate H | congruence
            | exfalso; apply H; reflexivity].
  - destruct f, d, clicked; discriminate.
  - destruct f, d, clicked; reflexivity.
Qed.

(** ** The chart range *)

(** X27. The two sliders keep the chart range in order and within the
    slider: from a range with 0 <= start <= end <= max, moving either
    slider to any value gives such a range again; a value the slider
    allows is taken as it is, except that the end slider cannot go below
    the start and the start slider pushes the end along. *)
Theorem chart_range_stays_in_bounds :
  forall (value sliderMax' : Z) (prev : Backtest.ChartRange),
    Backtest.rangeInBounds sliderMax' prev ->
    Backtest.rangeInBounds sliderMax'
      (Backtest.onStartChange value sliderMax' prev)
    /\ Backtest.rangeInBounds sliderMax'
         (Backtest.onEndChange value sliderMax' prev)
    /\ (0 <= value <= sliderMax' ->
        Backtest.start (Backtest.onStartChange value sliderMax' prev) = value
        /\ Backtest.end_ (Backtest.onStartChange value sliderMax' prev)
           = Z.max value (Backtest.end_ prev))
    /\ (0 <= value <= sliderMax' ->
        Backtest.start (Backtest.onEndChange value sliderMax' prev)
        = Backtest.start prev
        /\ Backtest.end_ (Backtest.onEndChange value sliderMax' prev)
           = Z.max value (Backtest.start prev)).
Proof.
  intros value sliderMax' [s e] (Hs & Hse & He).
  unfold Backtest.rangeInBounds, Backtest.onStartChange, Backtest.onEndChange
    in *.
  cbn [Backtest.start Backtest.end_] in *.
  destruct (Z.gtb_spec (Z.max 0 (Z.min value sliderMax')) e);
    cbn [Backtest.start Backtest.end_]; repeat split; lia.
Qed.

Lemma chart_range_stays_in_bounds_witness :
  Backtest.rangeInBounds 9
    (Backtest.onStartChange 7 9 {| Backtest.start := 2; Backtest.end_ := 5 |})
  /\ Backtest.onStartChange 7 9 {| Backtest.start := 2; Backtest.end_ := 5 |}
     = {| Backtest.start := 7; Backtest.end_ := 7 |}.
Proof.
  destruct (chart_range_stays_in_bounds 7 9
              {| Backtest.start := 2; Backtest.end_ := 5 |})
    as (Hstart & _ & _ & _).
  - unfold Backtest.rangeInBounds. cbn. lia.
  - split; [exact Hstart | reflexivity].
Defined.

Lemma slice_inner {A : Type} (array : list A) (from to : Z) :
  0 <= from <= to ->
  to <= Z.of_nat (List.length array) ->
  Backtest.slice array from to
  = firstn (Z.to_nat (to - from)) (skipn (Z.to_nat from) array)
  /\ Z.of_nat (List.length (Backtest.slice array from to)) = to - from.
Proof.
  intros Hfrom Hto. unfold Backtest.slice, Backtest.relativeIndex.
  destruct (Z.ltb_spec from 0); [lia |].
  destruct (Z.ltb_spec to 0); [lia |].
  rewrite (Z.min_l from) by lia. rewrite (Z.min_l to) by lia.
  split; [reflexivity |].
  rewrite length_firstn, length_skipn. lia.
Qed.

(** X28. The chart never comes out empty for a data set that has points:
    whatever the range, it shows at least one point and at most all of
    them.  For a range in order and within the slider it shows the points
    from the start to the end position, both included, and for the range
    set on selecting the data set it shows every point. *)
Theorem chart_data_window :
  forall (A : Type) (convert : A -> A) (data : list A)
         (chartRange : Backtest.ChartRange),
    data <> [] ->
    (1 <= Z.of_nat (List.length
                      (Backtest.chartData convert (Some data) chartRange))
     <= Z.of_nat (List.length data))
    /\ (Backtest.rangeInBounds (Backtest.sliderMax (Some data)) chartRange ->
        Backtest.chartData convert (Some data) chartRange
        = map convert
            (firstn (Z.to_nat (Backtest.end_ chartRange
                               - Backtest.start chartRange + 1))
               (skipn (Z.to_nat (Backtest.start chartRange)) data))
        /\ Z.of_nat (List.length
                       (Backtest.chartData convert (Some data) chartRange))
           = Backtest.end_ chartRange - Backtest.start chartRange + 1)
    /\ Backtest.rangeInBounds (Backtest.sliderMax (Some data))
         (Backtest.resetRange (Some data))
    /\ Backtest.chartData convert (Some data)
         (Backtest.resetRange (Some data))
       = map convert data.
Proof.
  intros A convert data [s e] Hdata.
  assert (Hlen : 1 <= Z.of_nat (List.length data)).
  { destruct data; [congruence | cbn [List.length]; lia]. }
  set (len := Z.of_nat (List.length data)) in *.
  assert (Hshape : forall s' e',
             Backtest.chartData convert (Some data)
               {| Backtest.start := s'; Backtest.end_ := e' |}
             = map convert
                 (Backtest.slice data
                    (Z.max 0 (Z.min s' (len - 1)))
                    (Z.max (Z.max 0 (Z.min s' (len - 1)))
                       (Z.min e' (len - 1)) + 1))).
  { intros s' e'. unfold Backtest.chartData. fold len.
    destruct (Z.eqb_spec len 0); [lia | reflexivity]. }
  assert (Hslice : forall s' e',
             0 <= s' <= e' -> e' <= len - 1 ->
             Backtest.slice data s' (e' + 1)
             = firstn (Z.to_nat (e' - s' + 1)) (skipn (Z.to_nat s') data)
             /\ Z.of_nat (List.length (Backtest.slice data s' (e' + 1)))
                = e' - s' + 1).
  { intros s' e' Hs He.
    destruct (slice_inner data s' (e' + 1)) as [Heq Hl]; [lia | fold len; lia |].
    split; [rewrite Heq; f_equal; f_equal; lia | lia]. }
  assert (Hreset : Backtest.resetRange (Some data)
                   = {| Backtest.start := 0; Backtest.end_ := len - 1 |}).
  { unfold Backtest.resetRange. fold len.
    destruct (Z.eqb_spec len 0); [lia | reflexivity]. }
  split; [| split; [| split]].
  - rewrite Hshape, length_map.
    destruct (Hslice (Z.max 0 (Z.min s (len - 1)))
                (Z.max (Z.max 0 (Z.min s (len - 1))) (Z.min e (len - 1))))
      as [_ Hl]; lia.
  - unfold Backtest.rangeInBounds, Backtest.sliderMax. fold len.
    cbn [Backtest.start Backtest.end_]. intros (Hs & Hse & He).
    rewrite Hshape, length_map.
    replace (Z.max 0 (Z.min s (len - 1))) with s by lia.
    replace (Z.max s (Z.min e (len - 1))) with e by lia.
    destruct (Hslice s e) as [Heq Hl]; [lia | lia |].
    split; [rewrite Heq; reflexivity | exact Hl].
  - rewrite Hreset.
    unfold Backtest.rangeInBounds, Backtest.sliderMax. fold len.
    cbn [Backtest.start Backtest.end_]. lia.
  - rewrite Hreset, Hshape.
    replace (Z.max 0 (Z.min 0 (len - 1))) with 0 by lia.
    replace (Z.max 0 (Z.min (len - 1) (len - 1))) with (len - 1) by lia.
    destruct (Hslice 0 (len - 1)) as [Heq _]; [lia | lia |].
    rewrite Heq. cbn [Z.to_nat skipn].
    replace (Z.to_nat (len - 1 - 0 + 1)) with (List.length data)
      by (unfold len; lia).
    rewrite firstn_all. reflexivity.
Qed.

Lemma chart_data_window_witness :
  Backtest.chartData (fun p : Z => p) (Some [10; 11; 12; 13; 14])
    {| Backtest.start := 1; Backtest.end_ := 3 |}
  = [11; 12; 13]
  /\ Backtest.chartData (fun p : Z => p) (Some [10; 11; 12; 13; 14])
       {| Backtest.start := -4; Backtest.end_ := -9 |}
     = [10].
Proof.
  destruct (chart_data_window Z (fun p => p) [10; 11; 12; 13; 14]
              {| Backtest.start := 1; Backtest.end_ := 3 |})
    as (_ & Hwindow & _ & _); [discriminate |].
  split; [| reflexivity].
  destruct Hwindow as [Heq _].
  - unfold Backtest.rangeInBounds. cbn. lia.
  - exact Heq.
Defined.

(** * Reading a time of day *)

(** X29. [timeStringToMinutes] reads a two-digit hour and a two-digit
    minute separated by a colon as sixty times the hour plus the minute; a
    third piece, the seconds, is ignored. *)
Theorem timeStringToMinutes_reads_hh_mm :
  forall h mi : Z,
    0 <= h < 100 ->
    0 <= mi < 100 ->
    timeStringToMinutes (Ref.twoDigit h ++ ":" ++ Ref.twoDigit mi)
    = Num (h * 60 + mi)
    /\ timeStringToMinutes (Ref.twoDigit h ++ ":" ++ Ref.twoDigit mi ++ ":30")
       = Num (h * 60 + mi).
Proof.
  intros h mi Hh Hmi.
  assert (Hall :
    forallb
      (fun a =>
         forallb
           (fun b =>
              match timeStringToMinutes
                      (Ref.twoDigit (Z.of_nat a) ++ ":"
                       ++ Ref.twoDigit (Z.of_nat b)),
                    timeStringToMinutes
                      (Ref.twoDigit (Z.of_nat a) ++ ":"
                       ++ Ref.twoDigit (Z.of_nat b) ++ ":30") with
              | Num v, Num w =>
                  (v =? Z.of_nat a * 60 + Z.of_nat b)
                  && (w =? Z.of_nat a * 60 + Z.of_nat b)
              | _, _ => false
              end)
           (seq 0 100))
      (seq 0 100) = true) by (vm_compute; reflexivity).
  rewrite forallb_forall in Hall.
  assert (Ha : In (Z.to_nat h) (seq 0 100)) by (apply in_seq; lia).
  specialize (Hall (Z.to_nat h) Ha).
  rewrite forallb_forall in Hall.
  assert (Hb : In (Z.to_nat mi) (seq 0 100)) by (apply in_seq; lia).
  specialize (Hall (Z.to_nat mi) Hb).
  rewrite !Z2Nat.id in Hall by lia.
  destruct (timeStringToMinutes (Ref.twoDigit h ++ ":" ++ Ref.twoDigit mi))
    as [| v]; [discriminate |].
  destruct (timeStringToMinutes
              (Ref.twoDigit h ++ ":" ++ Ref.twoDigit mi ++ ":30"))
    as [| w]; [discriminate |].
  apply andb_true_iff in Hall. destruct Hall as [Hv Hw].
  apply Z.eqb_eq in Hv, Hw. split; congruence.
Qed.

Lemma timeStringToMinutes_reads_hh_mm_witness :
  timeStringToMinutes "17:15" = Num (17 * 60 + 15)
  /\ timeStringToMinutes "17:15:30" = Num (17 * 60 + 15).
Proof.
  refine (timeStringToMinutes_reads_hh_mm 17 15 _ _); lia.
Defined.
